(** * Examples/torch/quantization/cle_bc.ipynb

  The notebook sequences calls into torchvision, torch and AIMET: it loads a
  pretrained resnet18, measures its accuracy, simulates quantization on a
  batch-norm-folded copy, applies cross-layer equalization and bias
  correction to the model and saves it.

  The cells are embedded as computations of a state-and-exception monad.
  The state holds the notebook's global namespace, the state of everything
  outside the notebook (torch, CUDA, AIMET, the file system) and, as ghost
  state, the log of the library calls made so far.  The libraries are a
  parameter: every theorem of the general part holds whatever they do. *)

From Stdlib Require Import ZArith Ascii String List.
From stdpp Require Import gmap strings list.
Set Warnings "-register-all".

Open Scope string_scope.

(** ** Python values *)

Module Py.

Definition loc := positive.

(** The values the notebook handles.  Objects made by a library (modules,
    tensors, devices, simulators, evaluators, loaders) are references
    [VObj]; their contents live in the library's state. *)
Inductive val : Type :=
| VNone
| VBool (b : bool)
| VInt (n : Z)
| VFloat (bits : Z)
| VStr (s : string)
| VTuple (items : list val)
| VDict (items : gmap string val)
| VEnum (cls member : string)
| VObj (l : loc)
| VPipeline (config : val)
| VBoundMethod (self : val) (name : string)
| VPartial (func : val) (keywords : list (string * val)).

Inductive exn : Type :=
| PyExn (cls : string) (args : list val).

Definition Exception (msg : string) : exn := PyExn "Exception" [VStr msg].
Definition KeyError (key : string) : exn := PyExn "KeyError" [VStr key].
Definition NameError (name : string) : exn := PyExn "NameError" [VStr name].
Definition TypeError (msg : string) : exn := PyExn "TypeError" [VStr msg].
Definition AttributeError (name : string) : exn :=
  PyExn "AttributeError" [VStr name].

Inductive result (A : Type) : Type :=
| Ok (a : A)
| Raise (e : exn).
Arguments Ok {A} a.
Arguments Raise {A} e.

(** Truth value of an object, as tested by [if]. *)
Definition truthy (v : val) : bool :=
  match v with
  | VNone => false
  | VBool b => b
  | VInt n => negb (Z.eqb n 0)
  | VFloat bits => negb (Z.eqb bits 0)
  | VStr s => negb (String.eqb s "")
  | VTuple items => match items with [] => false | _ => true end
  | VDict items => negb (bool_decide (items = ∅))
  | _ => true
  end.

(** [os.path.join(a, b)] of posixpath. *)
Definition startswith_sep (s : string) : bool :=
  match s with
  | String c _ => Ascii.eqb c "/"%char
  | EmptyString => false
  end.

Fixpoint endswith_sep (s : string) : bool :=
  match s with
  | EmptyString => false
  | String c EmptyString => Ascii.eqb c "/"%char
  | String _ rest => endswith_sep rest
  end.

Definition os_path_join (a b : string) : string :=
  if startswith_sep b then b
  else if (String.eqb a "" || endswith_sep a)%bool then a ++ b
  else a ++ "/" ++ b.

(** A call into a library: a function or constructor, a method of a
    library object, or an attribute read of one.  Positional and keyword
    arguments are kept apart as at the call site. *)
Inductive call : Type :=
| Func (name : string) (args : list val) (kwargs : list (string * val))
| Method (self : val) (name : string) (args : list val)
         (kwargs : list (string * val))
| GetAttr (self : val) (name : string).

(** Every value handed over by a call. *)
Definition call_args (c : call) : list val :=
  match c with
  | Func _ args kwargs => args ++ map snd kwargs
  | Method self _ args kwargs => self :: args ++ map snd kwargs
  | GetAttr self _ => [self]
  end.

(** The name called or read. *)
Definition callee (c : call) : string :=
  match c with
  | Func name _ _ => name
  | Method _ name _ _ => name
  | GetAttr _ name => name
  end.

(** The value bound to a keyword at a call site. *)
Fixpoint kwarg (key : string) (kwargs : list (string * val)) : option val :=
  match kwargs with
  | [] => None
  | (k, v) :: rest => if String.eqb k key then Some v else kwarg key rest
  end.

(** Values that hold no reference to a library object. *)
Inductive immediate : val -> Prop :=
| immediate_none : immediate VNone
| immediate_bool b : immediate (VBool b)
| immediate_int n : immediate (VInt n)
| immediate_float bits : immediate (VFloat bits)
| immediate_str s : immediate (VStr s)
| immediate_enum cls member : immediate (VEnum cls member)
| immediate_tuple items :
    Forall immediate items -> immediate (VTuple items)
| immediate_dict items :
    (forall key v, items !! key = Some v -> immediate v) ->
    immediate (VDict items)
| immediate_pipeline config :
    immediate config -> immediate (VPipeline config)
| immediate_method self name :
    immediate self -> immediate (VBoundMethod self name)
| immediate_partial func keywords :
    immediate func -> Forall immediate (map snd keywords) ->
    immediate (VPartial func keywords).

End Py.
Export Py.

(** ** The notebook *)

Section Notebook.

(** State of the libraries and of the machine. *)
Context {W : Type}.
(** What a library call does: its result and the state it leaves. *)
Variable ext : call -> W -> result val * W.
(** [datetime.now().strftime(fmt)], which returns a [str]. *)
Variable clock : string -> W -> result string * W.
(** [image_net_config.dataset['image_size']],
    [image_net_config.evaluation['batch_size']] and
    [image_net_config.evaluation['num_workers']] of [Examples.common]. *)
Variables image_size batch_size num_workers : val.

Inductive event : Type :=
| Called (w : W) (c : call) (r : result val)
| Clock (w : W) (fmt : string) (r : result string)
| Raises (e : exn).

Record state : Type := State {
  world : W;
  globals : gmap string val;
  trace : list event
}.

Definition M (A : Type) : Type := state -> result A * state.

Definition ret {A} (a : A) : M A := fun s => (Ok a, s).

Definition bind {A B} (m : M A) (k : A -> M B) : M B :=
  fun s =>
    match m s with
    | (Ok a, s') => k a s'
    | (Raise e, s') => (Raise e, s')
    end.

(** A [raise] executed by the notebook itself or by the interpreter on its
    behalf. *)
Definition raise {A} (e : exn) : M A :=
  fun s => (Raise e, State (world s) (globals s) (trace s ++ [Raises e])).

Definition call_ext (c : call) : M val :=
  fun s =>
    let '(r, w') := ext c (world s) in
    (r, State w' (globals s) (trace s ++ [Called (world s) c r])).

Definition now_strftime (fmt : string) : M string :=
  fun s =>
    let '(r, w') := clock fmt (world s) in
    (r, State w' (globals s) (trace s ++ [Clock (world s) fmt r])).

Definition assign (x : string) (v : val) : M unit :=
  fun s => (Ok tt, State (world s) (<[x := v]> (globals s)) (trace s)).

Definition load (x : string) : M val :=
  fun s =>
    match globals s !! x with
    | Some v => ret v s
    | None => raise (NameError x) s
    end.

Definition subscript (d : val) (key : string) : M val :=
  match d with
  | VDict items =>
      match items !! key with
      | Some v => ret v
      | None => raise (KeyError key)
      end
  | _ => raise (TypeError "object is not subscriptable")
  end.

Declare Scope py_scope.
Delimit Scope py_scope with py.
Notation "x <- m ;; k" := (bind m (fun x => k))
  (at level 100, m at next level, k at level 200, right associativity)
  : py_scope.
Notation "m ;; k" := (bind m (fun _ => k))
  (at level 100, k at level 200, right associativity) : py_scope.
Open Scope py_scope.

(** *** Configuration cell

    [dataset_dir] and [use_cuda] are the two literals of the dictionary the
    reader is told to set; the notebook as shipped has ["path/to/dataset"]
    and [True]. *)
Definition cell_config_with (dataset_dir use_cuda : val) : M unit :=
  stamp <- now_strftime "%Y-%m-%d-%H-%M-%S";;
  assign "config"
    (VDict (<["dataset_dir" := dataset_dir]>
           (<["use_cuda" := use_cuda]>
           (<["logdir" := VStr (os_path_join "benchmark_output"
                                             ("cle_bc_" ++ stamp))]> ∅))));;
  config <- load "config";;
  logdir <- subscript config "logdir";;
  call_ext (Func "os.makedirs" [logdir] [("exist_ok", VBool true)]);;
  ret tt.

Definition cell_config : M unit :=
  cell_config_with (VStr "path/to/dataset") (VBool true).

(** *** class ImageNetDataPipeline *)

(** [__init__]: [self._config = config]. *)
Definition ImageNetDataPipeline (config : val) : M val :=
  ret (VPipeline config).

(** [self._config] *)
Definition self_config (self : val) : M val :=
  match self with
  | VPipeline config => ret config
  | _ => raise (AttributeError "_config")
  end.

Definition data_loader (self : val) : M val :=
  config <- self_config self;;
  images_dir <- subscript config "dataset_dir";;
  loader <- call_ext (Func "ImageNetDataLoader" []
                        [("is_training", VBool false);
                         ("images_dir", images_dir);
                         ("image_size", image_size)]);;
  call_ext (GetAttr loader "data_loader").

Definition evaluate (self model iterations use_cuda : val) : M val :=
  config <- self_config self;;
  images_dir <- subscript config "dataset_dir";;
  evaluator <- call_ext (Func "ImageNetEvaluator" [images_dir]
                           [("image_size", image_size);
                            ("batch_size", batch_size);
                            ("num_workers", num_workers)]);;
  call_ext (Method evaluator "evaluate" [model; iterations; use_cuda] []).

(** *** Model setup cell *)

Definition guard_exn : exn :=
  Exception "use_cuda is True but cuda is unavailable".

(** The [if config['use_cuda']:] statement of the cell. *)
Definition use_cuda_guard : M unit :=
  config <- load "config";;
  use_cuda <- subscript config "use_cuda";;
  if truthy use_cuda then
    available <- call_ext (Func "torch.cuda.is_available" [] []);;
    if truthy available then
      model <- load "model";;
      device <- call_ext (Func "torch.device" [VStr "cuda"] []);;
      call_ext (Method model "to" [device] []);;
      ret tt
    else raise guard_exn
  else ret tt.

Definition cell_load_model : M unit :=
  config <- load "config";;
  pipeline <- ImageNetDataPipeline config;;
  assign "data_pipeline" pipeline;;
  net <- call_ext (Func "resnet18" [] [("pretrained", VBool true)]);;
  assign "model" net;;
  use_cuda_guard;;
  model <- load "model";;
  call_ext (Method model "eval" [] []);;
  data_pipeline <- load "data_pipeline";;
  model <- load "model";;
  config <- load "config";;
  use_cuda <- subscript config "use_cuda";;
  accuracy <- evaluate data_pipeline model VNone use_cuda;;
  assign "accuracy" accuracy;;
  accuracy <- load "accuracy";;
  call_ext (Func "print" [VStr "Original Model Accuracy: "; accuracy] []);;
  ret tt.

(** *** Quantization parameters cell *)
Definition cell_quant_params : M unit :=
  assign "quant_scheme" (VEnum "QuantScheme" "post_training_tf_enhanced");;
  assign "rounding_mode" (VStr "nearest");;
  assign "default_output_bw" (VInt 8);;
  assign "default_param_bw" (VInt 8);;
  assign "num_batches" (VInt 1).

Definition input_shape : val := VTuple [VInt 1; VInt 3; VInt 224; VInt 224].

(** The three statements that open each simulation cell:
    [dummy_input = torch.rand(1, 3, 224, 224)] and its conditional move. *)
Definition make_dummy_input : M unit :=
  fresh <- call_ext (Func "torch.rand" [VInt 1; VInt 3; VInt 224; VInt 224] []);;
  assign "dummy_input" fresh;;
  config <- load "config";;
  use_cuda <- subscript config "use_cuda";;
  if truthy use_cuda then
    dummy_input <- load "dummy_input";;
    device <- call_ext (Func "torch.device" [VStr "cuda"] []);;
    moved <- call_ext (Method dummy_input "to" [device] []);;
    assign "dummy_input" moved
  else ret tt.

(** [target = QuantizationSimModel(model=source, ...)]; [extra] holds the
    keyword arguments after [default_param_bw]. *)
Definition make_quantsim (target source : string)
    (extra : list (string * val)) : M unit :=
  model <- load source;;
  quant_scheme <- load "quant_scheme";;
  dummy_input <- load "dummy_input";;
  rounding_mode <- load "rounding_mode";;
  default_output_bw <- load "default_output_bw";;
  default_param_bw <- load "default_param_bw";;
  sim <- call_ext (Func "QuantizationSimModel" []
                     ([("model", model);
                       ("quant_scheme", quant_scheme);
                       ("dummy_input", dummy_input);
                       ("rounding_mode", rounding_mode);
                       ("default_output_bw", default_output_bw);
                       ("default_param_bw", default_param_bw)] ++ extra));;
  assign target sim.

(** [sim.compute_encodings(forward_pass_callback=partial(
    data_pipeline.evaluate, use_cuda=config['use_cuda']),
    forward_pass_callback_args=num_batches)]

    The simulator runs the callback while this call lasts.  What the
    callback does then is part of what the call does to the machine, and
    the log has the call, not the calls the callback makes: these are
    what [call_value] says, for any arguments the simulator gives it. *)
Definition compute_encodings (sim_name : string) : M unit :=
  sim <- load sim_name;;
  data_pipeline <- load "data_pipeline";;
  config <- load "config";;
  use_cuda <- subscript config "use_cuda";;
  num_batches <- load "num_batches";;
  call_ext (Method sim "compute_encodings" []
              [("forward_pass_callback",
                VPartial (VBoundMethod data_pipeline "evaluate")
                         [("use_cuda", use_cuda)]);
               ("forward_pass_callback_args", num_batches)]);;
  ret tt.

(** [accuracy = data_pipeline.evaluate(sim.model)] and the [print] after
    it; [iterations] and [use_cuda] take their defaults. *)
Definition evaluate_sim (sim_name label : string) : M unit :=
  data_pipeline <- load "data_pipeline";;
  sim <- load sim_name;;
  sim_model <- call_ext (GetAttr sim "model");;
  accuracy <- evaluate data_pipeline sim_model VNone (VBool false);;
  assign "accuracy" accuracy;;
  accuracy <- load "accuracy";;
  call_ext (Func "print" [VStr label; accuracy] []);;
  ret tt.

(** *** Baseline quantization simulation cell *)
Definition cell_baseline_quantsim : M unit :=
  make_dummy_input;;
  model <- load "model";;
  copy <- call_ext (Func "copy.deepcopy" [model] []);;
  assign "BN_folded_model" copy;;
  BN_folded_model <- load "BN_folded_model";;
  call_ext (Func "fold_all_batch_norms" [BN_folded_model]
              [("input_shapes", input_shape)]);;
  make_quantsim "quantizer" "BN_folded_model" [];;
  compute_encodings "quantizer";;
  evaluate_sim "quantizer" "Quantized (INT8) Model Top-1 Accuracy: ".

(** *** Cross-layer equalization cells *)
Definition cell_equalize : M unit :=
  model <- load "model";;
  call_ext (Func "equalize_model" [model] [("input_shapes", input_shape)]);;
  ret tt.

Definition cell_cle_quantsim : M unit :=
  make_dummy_input;;
  make_quantsim "cle_quantizer" "model" [];;
  compute_encodings "cle_quantizer";;
  evaluate_sim "cle_quantizer"
               "CLE applied Model Top-1 accuracy on Quant Simulator: ".

(** *** Bias correction cells *)
(** The two assignments marked [#Typical]. *)
Definition typical_bias_params : M unit :=
  assign "num_quant_samples" (VInt 16);;
  assign "num_bias_correct_samples" (VInt 16).

(** The two assignments marked [#Test]. *)
Definition test_bias_params : M unit :=
  assign "num_quant_samples" (VInt 1);;
  assign "num_bias_correct_samples" (VInt 1).

Definition cell_bias_params : M unit :=
  typical_bias_params;;
  test_bias_params.

Definition cell_correct_bias : M unit :=
  data_pipeline <- load "data_pipeline";;
  loader <- data_loader data_pipeline;;
  assign "data_loader" loader;;
  default_param_bw <- load "default_param_bw";;
  default_output_bw <- load "default_output_bw";;
  rounding_mode <- load "rounding_mode";;
  quant_scheme <- load "quant_scheme";;
  params <- call_ext (Func "QuantParams" []
                        [("weight_bw", default_param_bw);
                         ("act_bw", default_output_bw);
                         ("round_mode", rounding_mode);
                         ("quant_scheme", quant_scheme)]);;
  assign "bc_params" params;;
  model <- load "model";;
  bc_params <- load "bc_params";;
  num_quant_samples <- load "num_quant_samples";;
  loader <- load "data_loader";;
  num_bias_correct_samples <- load "num_bias_correct_samples";;
  call_ext (Func "correct_bias" [model; bc_params]
              [("num_quant_samples", num_quant_samples);
               ("data_loader", loader);
               ("num_bias_correct_samples", num_bias_correct_samples)]);;
  ret tt.

Definition checkpoint_name : string := "quantized_model.pth".

(** [torch.save(model, os.path.join(config['logdir'], name))] *)
Definition save_model : M unit :=
  model <- load "model";;
  config <- load "config";;
  logdir <- subscript config "logdir";;
  match logdir with
  | VStr dir =>
      call_ext (Func "torch.save"
                  [model; VStr (os_path_join dir checkpoint_name)] []);;
      ret tt
  | _ => raise (TypeError "expected str, bytes or os.PathLike object")
  end.

Definition cell_bc_quantsim_and_save : M unit :=
  make_dummy_input;;
  make_quantsim "bc_quantizer" "model" [("in_place", VBool false)];;
  compute_encodings "bc_quantizer";;
  evaluate_sim "bc_quantizer"
    "Quantized (INT8) Model Top-1 Accuracy After Bias Correction: ";;
  save_model.

(** *** The notebook, run top to bottom *)
Definition transforms : M unit :=
  cell_load_model;;
  cell_quant_params;;
  cell_baseline_quantsim;;
  cell_equalize;;
  cell_cle_quantsim;;
  cell_bias_params;;
  cell_correct_bias;;
  cell_bc_quantsim_and_save.

Definition notebook_with (dataset_dir use_cuda : val) : M unit :=
  cell_config_with dataset_dir use_cuda;;
  transforms.

Definition notebook : M unit :=
  notebook_with (VStr "path/to/dataset") (VBool true).

Definition init (w : W) : state := State w ∅ [].

End Notebook.

Arguments state : clear implicits.
Arguments event : clear implicits.
Arguments M : clear implicits.

(** ** Reading the log *)

Section Traces.

Context {W : Type}.

Definition event_call (e : event W) : option call :=
  match e with
  | Called _ c _ => Some c
  | _ => None
  end.

Definition calls (tr : list (event W)) : list call := omap event_call tr.

(** The exception an event ends with, if it ends with one. *)
Definition raising (e : event W) : option exn :=
  match e with
  | Called _ _ (Raise x) => Some x
  | Clock _ _ (Raise x) => Some x
  | Raises x => Some x
  | _ => None
  end.

(** Arguments of the calls of the function [name], in order. *)
Definition func_calls (name : string) (tr : list (event W))
    : list (list val * list (string * val)) :=
  omap (fun e =>
          match e with
          | Called _ (Func n args kwargs) _ =>
              if String.eqb n name then Some (args, kwargs) else None
          | _ => None
          end) tr.

(** Values returned by the calls of the function [name], in order. *)
Definition func_results (name : string) (tr : list (event W)) : list val :=
  omap (fun e =>
          match e with
          | Called _ (Func n _ _) (Ok v) =>
              if String.eqb n name then Some v else None
          | _ => None
          end) tr.

(** Receiver and positional arguments of the calls of the method [name]. *)
Definition method_calls (name : string) (tr : list (event W))
    : list (val * list val) :=
  omap (fun e =>
          match e with
          | Called _ (Method self n args _) _ =>
              if String.eqb n name then Some (self, args) else None
          | _ => None
          end) tr.

Definition method_results (name : string) (tr : list (event W)) : list val :=
  omap (fun e =>
          match e with
          | Called _ (Method _ n _ _) (Ok v) =>
              if String.eqb n name then Some v else None
          | _ => None
          end) tr.

Definition getattr_calls (name : string) (tr : list (event W)) : list val :=
  omap (fun e =>
          match e with
          | Called _ (GetAttr self n) _ =>
              if String.eqb n name then Some self else None
          | _ => None
          end) tr.

Definition getattr_results (name : string) (tr : list (event W))
    : list val :=
  omap (fun e =>
          match e with
          | Called _ (GetAttr _ n) (Ok v) =>
              if String.eqb n name then Some v else None
          | _ => None
          end) tr.


(** The object [resnet18] returned. *)
Definition loaded_model (tr : list (event W)) : option val :=
  head (func_results "resnet18" tr).



(** The [dummy_input] keywords of the simulators built. *)
Definition dummy_inputs (tr : list (event W)) : list val :=
  omap (fun c => kwarg "dummy_input" c.2)
       (func_calls "QuantizationSimModel" tr).

(** The calls that touch the file system. *)
Definition fs_calls (tr : list (event W)) : list call :=
  filter (fun c => bool_decide (callee c = "os.makedirs"
                                \/ callee c = "torch.save")) (calls tr).

(** The samples keywords of the [correct_bias] calls. *)
Definition bias_samples (tr : list (event W))
    : list (option val * option val) :=
  map (fun c => (kwarg "num_quant_samples" c.2,
                 kwarg "num_bias_correct_samples" c.2))
      (func_calls "correct_bias" tr).

(** Weakest precondition of a computation: [Q] holds of the outcome. *)
Definition wp {A} (m : M W A) (Q : result A -> state W -> Prop)
    (s : state W) : Prop :=
  Q (m s).1 (m s).2.

End Traces.

(** ** The order of the steps *)

Module Order.

Inductive step : Type :=
| LoadModel | Evaluate | BuildSim | Encodings | Equalize | CorrectBias | Save.

Definition step_eqb (a b : step) : bool :=
  match a, b with
  | LoadModel, LoadModel | Evaluate, Evaluate | BuildSim, BuildSim
  | Encodings, Encodings | Equalize, Equalize | CorrectBias, CorrectBias
  | Save, Save => true
  | _, _ => false
  end.

Definition step_of_call (c : call) : option step :=
  match c with
  | Func name _ _ =>
      if String.eqb name "resnet18" then Some LoadModel
      else if String.eqb name "QuantizationSimModel" then Some BuildSim
      else if String.eqb name "equalize_model" then Some Equalize
      else if String.eqb name "correct_bias" then Some CorrectBias
      else if String.eqb name "torch.save" then Some Save
      else None
  | Method _ name _ _ =>
      if String.eqb name "evaluate" then Some Evaluate
      else if String.eqb name "compute_encodings" then Some Encodings
      else None
  | GetAttr _ _ => None
  end.

Definition steps {W} (tr : list (event W)) : list step :=
  omap step_of_call (calls tr).

(** [follows groups done]: the steps [done] can be attributed, each to a
    group that allows it, so that no step is attributed to a group listed
    before the group of an earlier step. *)
Inductive follows : list (list step) -> list step -> Prop :=
| follows_nil groups : follows groups []
| follows_here g groups st rest :
    existsb (step_eqb st) g = true ->
    follows (g :: groups) rest ->
    follows (g :: groups) (st :: rest)
| follows_skip g groups rest :
    follows groups rest ->
    follows (g :: groups) rest.

(** The groups from the first one that allows [st] on. *)
Fixpoint advance (groups : list (list step)) (st : step)
    : option (list (list step)) :=
  match groups with
  | [] => None
  | g :: rest =>
      if existsb (step_eqb st) g then Some groups else advance rest st
  end.

Fixpoint in_order (groups : list (list step)) (done : list step) : bool :=
  match done with
  | [] => true
  | st :: rest =>
      match advance groups st with
      | Some groups' => in_order groups' rest
      | None => false
      end
  end.

(** Load, evaluate, build the simulator, compute encodings, apply both
    transforms, simulate again, save. *)
Definition transforms_then_rerun : list (list step) :=
  [[LoadModel]; [Evaluate]; [BuildSim]; [Encodings; Evaluate];
   [Equalize; CorrectBias]; [BuildSim; Encodings; Evaluate]; [Save]].

(** The same with a simulation after each transform. *)
Definition rerun_after_each : list (list step) :=
  [[LoadModel]; [Evaluate]; [BuildSim]; [Encodings; Evaluate];
   [Equalize]; [BuildSim; Encodings; Evaluate];
   [CorrectBias]; [BuildSim; Encodings; Evaluate]; [Save]].

Definition full_run : list step :=
  [LoadModel; Evaluate; BuildSim; Encodings; Evaluate;
   Equalize; BuildSim; Encodings; Evaluate;
   CorrectBias; BuildSim; Encodings; Evaluate; Save].

End Order.

(** ** What the theorems say of a run *)

Section Statements.

Context {W : Type}.
Variable ext : call -> W -> result val * W.
Variables image_size batch_size num_workers : val.

(** *** The guard of the model setup cell *)

Definition cuda_query : call := Func "torch.cuda.is_available" [] [].
Definition cuda_device : call := Func "torch.device" [VStr "cuda"] [].

(** [torch.cuda.is_available()] returns, with truth value [b]. *)
Definition cuda_reported (b : bool) (w : W) : Prop :=
  exists a w', ext cuda_query w = (Ok a, w') /\ truthy a = b.

(** The run ended in the guard's own [raise]. *)
Definition guard_raised (out : result unit * state W) : Prop :=
  out.1 = Raise guard_exn /\
  exists before, trace out.2 = (before ++ [Raises guard_exn])%list.

Definition forwarded (r : result val) : result unit :=
  match r with
  | Ok _ => Ok tt
  | Raise e => Raise e
  end.

Definition guard_behaviour (s : state W) (use_cuda model : val) : Prop :=
  (guard_raised (use_cuda_guard ext s) <->
     truthy use_cuda = true /\ cuda_reported false (world s)) /\
  (truthy use_cuda = false -> use_cuda_guard ext s = (Ok tt, s)) /\
  (truthy use_cuda = true ->
   forall a w1 device w2 r w3,
     ext cuda_query (world s) = (Ok a, w1) ->
     truthy a = true ->
     ext cuda_device w1 = (Ok device, w2) ->
     ext (Method model "to" [device] []) w2 = (r, w3) ->
     use_cuda_guard ext s =
       (forwarded r,
        State w3 (globals s)
              (trace s ++ [Called (world s) cuda_query (Ok a);
                           Called w1 cuda_device (Ok device);
                           Called w2 (Method model "to" [device] []) r])%list)).

(** *** ImageNetDataPipeline.evaluate *)

Definition evaluator_new (images_dir : val) : call :=
  Func "ImageNetEvaluator" [images_dir]
       [("image_size", image_size);
        ("batch_size", batch_size);
        ("num_workers", num_workers)].

Definition evaluator_evaluate (evaluator model iterations use_cuda : val)
    : call :=
  Method evaluator "evaluate" [model; iterations; use_cuda] [].

Abbreviation evaluate_of :=
  (evaluate ext image_size batch_size num_workers).

(** Two pipelines behave alike whatever their configurations. *)
Definition evaluate_ignores_config : Prop :=
  forall config1 config2 model iterations use_cuda s,
    evaluate_of (VPipeline config1) model iterations use_cuda s =
    evaluate_of (VPipeline config2) model iterations use_cuda s.

(** *** Exceptions *)

(** No event of [tr] raises when the run ends normally; when it ends with
    [x], the last event raised [x], none before it raised, and a [raise]
    of the notebook's own is one that [own] admits. *)
Definition exception_flow {A} (own : exn -> Prop) (r : result A)
    (tr : list (event W)) : Prop :=
  match r with
  | Ok _ => Forall (fun e => raising e = None) tr
  | Raise x =>
      exists before last,
        tr = (before ++ [last])%list /\
        Forall (fun e => raising e = None) before /\
        raising last = Some x /\
        forall y, last = Raises y -> own y
  end.

Definition only_the_guard (x : exn) : Prop := x = guard_exn.
Definition nothing_of_its_own (x : exn) : Prop := False.

(** *** Which object is transformed, evaluated and saved *)


Definition is_prefix_or_all {A} (complete : bool) (l all : list A) : Prop :=
  if complete then l = all else l `prefix_of` all.

Definition completed {A} (r : result A) : bool :=
  match r with
  | Ok _ => true
  | Raise _ => false
  end.


(** *** The checkpoint *)

Variable is_dir : W -> string -> Prop.

Definition logdir_of (stamp : string) : string :=
  os_path_join "benchmark_output" ("cle_bc_" ++ stamp).

Definition makedirs_call (dir : string) : call :=
  Func "os.makedirs" [VStr dir] [("exist_ok", VBool true)].

Definition save_call (model : val) (dir : string) : call :=
  Func "torch.save" [model; VStr (os_path_join dir checkpoint_name)] [].

(** [os.makedirs(dir, exist_ok=True)], when it returns, leaves a directory
    at [dir], and no call removes a directory. *)
Definition directories_persist : Prop :=
  (forall dir w v w',
      ext (makedirs_call dir) w = (Ok v, w') -> is_dir w' dir) /\
  (forall c w r w' dir,
      ext c w = (r, w') -> is_dir w dir -> is_dir w' dir).

Definition one_checkpoint (r : result unit) (s : state W) : Prop :=
  match r with
  | Ok _ =>
      exists stamp model before w v,
        trace s = (before ++
                   [Called w (save_call model (logdir_of stamp)) (Ok v)])%list /\
        fs_calls (trace s) = [makedirs_call (logdir_of stamp);
                              save_call model (logdir_of stamp)] /\
        loaded_model (trace s) = Some model /\
        (exists config,
            globals s !! "config" = Some (VDict config) /\
            config !! "logdir" = Some (VStr (logdir_of stamp))) /\
        is_dir w (logdir_of stamp)
  | Raise _ =>
      exists before last,
        trace s = (before ++ [last])%list /\
        func_calls "torch.save" before = []
  end.

(** *** The baseline simulation and the loaded model *)

(** What the libraries are taken to respect.  [alive w p]: the object [p]
    exists in [w]; [apart w p v]: the value [v] shares nothing with [p];
    [snapshot w p]: the contents of [p].  A call whose arguments are all
    apart from [p] leaves [p] as it is and yields nothing that shares with
    it; [copy.deepcopy] leaves its argument as it is and yields a copy
    apart from it; no call destroys an object; what [resnet18] returns
    exists. *)
Variable Contents : Type.
Variable alive : W -> val -> Prop.
Variable apart : W -> val -> val -> Prop.
Variable snapshot : W -> val -> Contents.

Definition untouched (w w' : W) (p : val) (r : result val) : Prop :=
  alive w' p /\
  snapshot w' p = snapshot w p /\
  (forall x, apart w p x -> apart w' p x) /\
  (forall v, r = Ok v -> apart w' p v).

Definition footprints_respected : Prop :=
  (forall w p v, immediate v -> apart w p v) /\
  (forall c w r w' p,
      ext c w = (r, w') -> alive w p ->
      Forall (apart w p) (call_args c) -> untouched w w' p r) /\
  (forall x w r w',
      ext (Func "copy.deepcopy" [x] []) w = (r, w') -> alive w x ->
      untouched w w' x r) /\
  (forall c w r w' p, ext c w = (r, w') -> alive w p -> alive w' p) /\
  (forall kwargs w v w',
      ext (Func "resnet18" [] kwargs) w = (Ok v, w') -> alive w' v).

(** The call hands [p] to [copy.deepcopy], or hands over nothing that
    shares with [p]. *)
Definition copied_or_apart (p : val) (e : event W) : Prop :=
  match e with
  | Called w c _ =>
      c = Func "copy.deepcopy" [p] [] \/ Forall (apart w p) (call_args c)
  | _ => True
  end.

Definition equalize_call (model : val) : call :=
  Func "equalize_model" [model] [("input_shapes", input_shape)].

(** The baseline simulation cell, run from [s], leaves the object named
    [model] as it found it: the object is handed to [copy.deepcopy] only,
    batch norms are folded on the copy, and the name still denotes the
    object afterwards, so that the next cell hands it to
    [equalize_model]. *)
Definition baseline_keeps_model (s : state W) : Prop :=
  exists m,
    globals s !! "model" = Some m /\
    wp (cell_baseline_quantsim ext image_size batch_size num_workers)
       (fun r s' =>
          let evs := drop (length (trace s)) (trace s') in
          snapshot (world s') m = snapshot (world s) m /\
          globals s' !! "model" = Some m /\
          Forall (copied_or_apart m) evs /\
          is_prefix_or_all (completed r)
            (map fst (func_calls "fold_all_batch_norms" evs))
            (map (fun v => [v]) (func_results "copy.deepcopy" evs)) /\
          forall r' w',
            ext (equalize_call m) (world s') = (r', w') ->
            cell_equalize ext s' =
              (forwarded r',
               State w' (globals s')
                     (trace s' ++ [Called (world s') (equalize_call m) r'])%list))
       s.

(** The cells before the baseline simulation. *)
Definition setup_cells (clock : string -> W -> result string * W)
    (dataset_dir use_cuda : val) : M W unit :=
  bind (cell_config_with ext clock dataset_dir use_cuda)
       (fun _ => bind (cell_load_model ext image_size batch_size num_workers)
                      (fun _ => cell_quant_params)).

(** *** Moves to the accelerator *)

Definition moves_gated (use_cuda : val) (r : result unit) (s : state W)
    : Prop :=
  let tr := trace s in
  if truthy use_cuda then
    is_prefix_or_all (completed r)
      (map fst (method_calls "to" tr))
      (func_results "resnet18" tr ++ func_results "torch.rand" tr)%list /\
    is_prefix_or_all (completed r)
      (map snd (method_calls "to" tr))
      (map (fun d => [d]) (func_results "torch.device" tr)) /\
    Forall (eq ([VStr "cuda"], [])) (func_calls "torch.device" tr) /\
    is_prefix_or_all (completed r)
      (dummy_inputs tr) (tail (method_results "to" tr))
  else
    method_calls "to" tr = [] /\
    func_calls "torch.device" tr = [] /\
    func_calls "torch.cuda.is_available" tr = [] /\
    is_prefix_or_all (completed r)
      (dummy_inputs tr) (func_results "torch.rand" tr).

(** *** Bias correction samples *)

Definition one_sample : option val * option val :=
  (Some (VInt 1), Some (VInt 1)).

Definition bias_samples_are_one (r : result unit) (s : state W) : Prop :=
  if completed r then bias_samples (trace s) = [one_sample]
  else Forall (eq one_sample) (bias_samples (trace s)).

(** *** Order of the steps *)

Definition steps_in_order (r : result unit) (s : state W) : Prop :=
  is_prefix_or_all (completed r) (Order.steps (trace s)) Order.full_run /\
  Order.follows Order.rerun_after_each (Order.steps (trace s)).

End Statements.

(** ** A stand-in for the libraries

  A small executable model of torch, torchvision, AIMET and the file
  system, used to run the notebook on concrete inputs.  An object is a
  record of its kind and of the operations applied to it so far. *)

Module Mock.

Record obj : Type := Obj { kind : string; history : list string }.

Record machine : Type := Machine {
  heap : gmap loc obj;
  cuda : bool;
  dirs : gset string;
  files : gmap string obj;
  stdout : list (list val);
  now : string;
  broken : list string
}.

Definition set_heap (h : gmap loc obj) (w : machine) : machine :=
  Machine h (cuda w) (dirs w) (files w) (stdout w) (now w) (broken w).
Definition set_dirs (d : gset string) (w : machine) : machine :=
  Machine (heap w) (cuda w) d (files w) (stdout w) (now w) (broken w).
Definition set_files (f : gmap string obj) (w : machine) : machine :=
  Machine (heap w) (cuda w) (dirs w) f (stdout w) (now w) (broken w).
Definition set_stdout (o : list (list val)) (w : machine) : machine :=
  Machine (heap w) (cuda w) (dirs w) (files w) o (now w) (broken w).

Definition alloc (o : obj) (w : machine) : result val * machine :=
  let l := fresh (dom (heap w)) in
  (Ok (VObj l), set_heap (<[l := o]> (heap w)) w).

(** Apply [tag] to the object at [l] in place and return [ret]. *)
Definition touch (l : loc) (tag : string) (ret : val) (w : machine)
    : result val * machine :=
  match heap w !! l with
  | Some o =>
      (Ok ret, set_heap (<[l := Obj (kind o) (history o ++ [tag])]> (heap w)) w)
  | None => (Raise (PyExn "ReferenceError" [VObj l]), w)
  end.

Fixpoint rstrip_sep (reversed : list ascii) : list ascii :=
  match reversed with
  | c :: rest => if Ascii.eqb c "/"%char then rstrip_sep rest else reversed
  | [] => []
  end.

Fixpoint drop_basename (reversed : list ascii) : list ascii :=
  match reversed with
  | c :: rest => if Ascii.eqb c "/"%char then reversed else drop_basename rest
  | [] => []
  end.

(** [os.path.dirname] of posixpath. *)
Definition dirname (p : string) : string :=
  let head := drop_basename (rev (list_ascii_of_string p)) in
  match rstrip_sep head with
  | [] => string_of_list_ascii (rev head)
  | stripped => string_of_list_ascii (rev stripped)
  end.

Definition bad_arguments (name : string) : exn := TypeError name.

Definition score (images_dir : list string) (model : obj) : val :=
  VFloat (1000 * Z.of_nat (length (concat (map list_ascii_of_string images_dir)))
          + Z.of_nat (length (history model))).

Definition func (name : string) (args : list val)
    (kwargs : list (string * val)) (w : machine) : result val * machine :=
  if String.eqb name "os.makedirs" then
    match args with
    | [VStr p] =>
        if (bool_decide (p ∈ dirs w)
            && negb (match kwarg "exist_ok" kwargs with
                     | Some v => truthy v
                     | None => false
                     end))%bool
        then (Raise (PyExn "FileExistsError" [VStr p]), w)
        else (Ok VNone, set_dirs ({[p]} ∪ dirs w) w)
    | _ => (Raise (bad_arguments name), w)
    end
  else if String.eqb name "print" then
    (Ok VNone, set_stdout (stdout w ++ [args]) w)
  else if String.eqb name "resnet18" then alloc (Obj "resnet18" []) w
  else if String.eqb name "torch.cuda.is_available" then
    (Ok (VBool (cuda w)), w)
  else if String.eqb name "torch.device" then alloc (Obj "device" []) w
  else if String.eqb name "torch.rand" then alloc (Obj "tensor" []) w
  else if String.eqb name "ImageNetEvaluator" then
    match args with
    | [VStr d] => alloc (Obj "evaluator" [d]) w
    | _ => (Raise (bad_arguments name), w)
    end
  else if String.eqb name "ImageNetDataLoader" then
    alloc (Obj "loader" []) w
  else if String.eqb name "QuantParams" then
    alloc (Obj "quant_params" []) w
  else if String.eqb name "copy.deepcopy" then
    match args with
    | [VObj l] =>
        match heap w !! l with
        | Some o => alloc o w
        | None => (Raise (PyExn "ReferenceError" [VObj l]), w)
        end
    | [v] => (Ok v, w)
    | _ => (Raise (bad_arguments name), w)
    end
  else if String.eqb name "fold_all_batch_norms" then
    match args with
    | [VObj l] => touch l "bn_folded" (VTuple []) w
    | _ => (Raise (bad_arguments name), w)
    end
  else if String.eqb name "equalize_model" then
    match args with
    | [VObj l] => touch l "equalized" VNone w
    | _ => (Raise (bad_arguments name), w)
    end
  else if String.eqb name "correct_bias" then
    match args with
    | [VObj l; _] => touch l "bias_corrected" VNone w
    | _ => (Raise (bad_arguments name), w)
    end
  else if String.eqb name "QuantizationSimModel" then
    match kwarg "model" kwargs with
    | Some (VObj l) =>
        match heap w !! l, kwarg "in_place" kwargs with
        | Some o, Some (VBool true) => touch l "quantsim" (VObj l) w
        | Some o, _ => alloc (Obj (kind o) (history o ++ ["quantsim"])) w
        | None, _ => (Raise (PyExn "ReferenceError" [VObj l]), w)
        end
    | _ => (Raise (bad_arguments name), w)
    end
  else if String.eqb name "torch.save" then
    match args with
    | [VObj l; VStr p] =>
        match heap w !! l with
        | Some o =>
            if bool_decide (dirname p ∈ dirs w)
            then (Ok VNone, set_files (<[p := o]> (files w)) w)
            else (Raise (PyExn "FileNotFoundError" [VStr p]), w)
        | None => (Raise (PyExn "ReferenceError" [VObj l]), w)
        end
    | _ => (Raise (bad_arguments name), w)
    end
  else (Raise (NameError name), w).

Definition method (self : loc) (name : string) (args : list val)
    (w : machine) : result val * machine :=
  if String.eqb name "eval" then touch self "eval" (VObj self) w
  else if String.eqb name "to" then
    match heap w !! self with
    | Some o =>
        if String.eqb (kind o) "tensor"
        then alloc (Obj "tensor" (history o ++ ["to"])) w
        else touch self "to" (VObj self) w
    | None => (Raise (PyExn "ReferenceError" [VObj self]), w)
    end
  else if String.eqb name "evaluate" then
    match heap w !! self, args with
    | Some ev, [VObj m; _; _] =>
        match heap w !! m with
        | Some o => (Ok (score (history ev) o), w)
        | None => (Raise (PyExn "ReferenceError" [VObj m]), w)
        end
    | _, _ => (Raise (bad_arguments name), w)
    end
  else (Raise (AttributeError name), w).

(** Everything but [compute_encodings], which calls back into the
    notebook. *)
Definition lib0 (c : call) (w : machine) : result val * machine :=
  if existsb (String.eqb (callee c)) (broken w)
  then (Raise (PyExn "RuntimeError" [VStr (callee c)]), w)
  else
    match c with
    | Func name args kwargs => func name args kwargs w
    | Method (VObj self) name args _ => method self name args w
    | GetAttr (VObj self) name =>
        match heap w !! self with
        | Some _ => (Ok (VObj self), w)
        | None => (Raise (PyExn "ReferenceError" [VObj self]), w)
        end
    | _ => (Raise (AttributeError (callee c)), w)
    end.

Definition image_size : val := VInt 224.
Definition batch_size : val := VInt 128.
Definition num_workers : val := VInt 32.

(** Calling [partial(pipeline.evaluate, use_cuda=...)] on a model and the
    callback arguments, as [compute_encodings] does. *)
Definition forward_pass (callback model args : val) (w : machine)
    : result val * machine :=
  match callback with
  | VPartial (VBoundMethod pipeline name) keywords =>
      match String.eqb name "evaluate", kwarg "use_cuda" keywords with
      | true, Some use_cuda =>
          let '(r, s) :=
            evaluate lib0 image_size batch_size num_workers
                     pipeline model args use_cuda (init w) in
          (r, world s)
      | _, _ => (Raise (TypeError "object is not callable"), w)
      end
  | _ => (Raise (TypeError "object is not callable"), w)
  end.

Definition compute_encodings (self : loc) (kwargs : list (string * val))
    (w : machine) : result val * machine :=
  if existsb (String.eqb "compute_encodings") (broken w)
  then (Raise (PyExn "RuntimeError" [VStr "compute_encodings"]), w)
  else
    match kwarg "forward_pass_callback" kwargs,
          kwarg "forward_pass_callback_args" kwargs with
    | Some callback, Some args =>
        match forward_pass callback (VObj self) args w with
        | (Ok _, w') => touch self "encodings" VNone w'
        | (Raise e, w') => (Raise e, w')
        end
    | _, _ => (Raise (bad_arguments "compute_encodings"), w)
    end.

Definition lib (c : call) (w : machine) : result val * machine :=
  match c with
  | Method (VObj self) name [] kwargs =>
      if String.eqb name "compute_encodings"
      then compute_encodings self kwargs w
      else lib0 c w
  | _ => lib0 c w
  end.

Definition clock (fmt : string) (w : machine) : result string * machine :=
  (Ok (now w), w).

Definition fresh_machine (has_cuda : bool) (failing : list string) : machine :=
  Machine ∅ has_cuda ∅ ∅ [] "2021-06-01-12-00-00" failing.

(** A machine on which [resnet18] has been loaded, and the state of the
    notebook at that point. *)
Definition loaded_machine (has_cuda : bool) (failing : list string)
    : machine :=
  Machine {[1%positive := Obj "resnet18" []]} has_cuda ∅ ∅ []
          "2021-06-01-12-00-00" failing.

Definition setup_config (use_cuda : val) : gmap string val :=
  <["dataset_dir" := VStr "data"]>
    (<["use_cuda" := use_cuda]>
       (<["logdir" := VStr "benchmark_output/cle_bc_2021-06-01-12-00-00"]> ∅)).

Definition setup_state (has_cuda : bool) (failing : list string)
    (use_cuda : val) : state machine :=
  State (loaded_machine has_cuda failing)
        (<["model" := VObj 1%positive]>
           (<["config" := VDict (setup_config use_cuda)]> ∅)) [].

(** Directories, and the objects of the heap, as the theorems on the file
    system and on footprints see them. *)
Definition is_dir (w : machine) (p : string) : Prop := p ∈ dirs w.

Definition root (v : val) : option loc :=
  match v with
  | VObj l => Some l
  | _ => None
  end.

Definition alive (w : machine) (v : val) : Prop :=
  forall l, root v = Some l -> is_Some (heap w !! l).

Definition apart (w : machine) (p v : val) : Prop :=
  forall l, root p = Some l -> root v <> Some l.

Definition snapshot (w : machine) (v : val) : option obj :=
  match root v with
  | Some l => heap w !! l
  | None => None
  end.

Definition run (dataset_dir use_cuda : val) (w : machine)
    : result unit * state machine :=
  notebook_with lib clock image_size batch_size num_workers
                dataset_dir use_cuda (init w).

(** [effect locs w w' r]: going from [w] to [w'] with result [r] removes no
    directory and no object, changes only objects of [locs], and returns
    an object that existed before only if it is one of [locs]. *)
Definition effect (locs : list loc) (w w' : machine) (r : result val)
    : Prop :=
  dirs w ⊆ dirs w' /\
  (forall l, is_Some (heap w !! l) -> is_Some (heap w' !! l)) /\
  (forall l, is_Some (heap w !! l) -> l ∉ locs ->
             heap w' !! l = heap w !! l) /\
  (forall v l, r = Ok v -> root v = Some l -> is_Some (heap w !! l) ->
               l ∈ locs).

(** The notebook as shipped, on a machine with CUDA. *)
Definition shipped_run : result unit * state machine :=
  run (VStr "path/to/dataset") (VBool true) (fresh_machine true []).

(** The cells before the baseline simulation, on the same machine. *)
Definition after_setup : result unit * state machine :=
  setup_cells lib image_size batch_size num_workers clock
              (VStr "path/to/dataset") (VBool true)
              (init (fresh_machine true [])).

(** The two calls [evaluate] makes on a machine with the model loaded. *)
Definition evaluator_made : result val * machine :=
  lib (evaluator_new image_size batch_size num_workers (VStr "data"))
      (loaded_machine false []).

Definition evaluation_made : result val * machine :=
  lib (evaluator_evaluate (VObj 2%positive) (VObj 1%positive) VNone
                          (VBool false))
      evaluator_made.2.

End Mock.

(** ** What the cells hand to the libraries *)

Section Handovers.

Context {W : Type}.
Variable ext : call -> W -> result val * W.
Variables image_size batch_size num_workers : val.

(** *** ImageNetDataPipeline.data_loader *)

Definition loader_new (images_dir : val) : call :=
  Func "ImageNetDataLoader" []
       [("is_training", VBool false);
        ("images_dir", images_dir);
        ("image_size", image_size)].

Definition loader_attribute (loader : val) : call :=
  GetAttr loader "data_loader".

(** *** Configuration cell *)

Definition stamp_format : string := "%Y-%m-%d-%H-%M-%S".

(** The dictionary the cell binds to [config]. *)
Definition config_of (dataset_dir use_cuda : val) (stamp : string)
    : gmap string val :=
  <["dataset_dir" := dataset_dir]>
    (<["use_cuda" := use_cuda]>
       (<["logdir" := VStr (logdir_of stamp)]> ∅)).

(** *** Reading more of the log *)

(** Keyword arguments of the calls of the method [name]. *)
Definition method_kwargs (name : string) (tr : list (event W))
    : list (list (string * val)) :=
  omap (fun e =>
          match e with
          | Called _ (Method _ n _ kwargs) _ =>
              if String.eqb n name then Some kwargs else None
          | _ => None
          end) tr.

(** The log up to the first call of an evaluator's [evaluate]. *)
Fixpoint before_evaluation (tr : list (event W)) : list (event W) :=
  match tr with
  | [] => []
  | e :: rest =>
      match e with
      | Called _ (Method _ n _ _) _ =>
          if String.eqb n "evaluate" then [] else e :: before_evaluation rest
      | _ => e :: before_evaluation rest
      end
  end.

(** A [raise] of the notebook's own is in the log. *)
Definition notebook_raised (tr : list (event W)) : bool :=
  existsb (fun e => match e with Raises _ => true | _ => false end) tr.

(** *** The evaluations the cells ask for

    These are the evaluations asked for by statements of the cells,
    [data_pipeline.evaluate(...)]; those the simulator asks for through
    the callback are not in the log. *)

(** The [iterations] and [use_cuda] arguments of the evaluations. *)
Definition evaluation_flags (tr : list (event W)) : list (list val) :=
  map (fun c => tail c.2) (method_calls "evaluate" tr).

(** The first evaluation a cell asks for is asked for with
    [config['use_cuda']]; those the cells ask for of the three simulated
    models take the defaults of [evaluate], [iterations=None] and
    [use_cuda=False]. *)
Definition simulations_evaluated_with_defaults (use_cuda : val)
    (r : result unit) (s : state W) : Prop :=
  is_prefix_or_all (completed r) (evaluation_flags (trace s))
    ([VNone; use_cuda] :: replicate 3 [VNone; VBool false]).

(** Every evaluator built for a cell is built from the configured
    directory and the fixed settings, and every evaluation a cell asks for
    runs on the evaluator built last; the cells of a run that ends
    normally have four built. *)
Definition evaluator_built_per_evaluation (dataset_dir : val)
    (r : result unit) (s : state W) : Prop :=
  let tr := trace s in
  Forall (eq ([dataset_dir],
              [("image_size", image_size);
               ("batch_size", batch_size);
               ("num_workers", num_workers)]))
         (func_calls "ImageNetEvaluator" tr) /\
  map fst (method_calls "evaluate" tr) = func_results "ImageNetEvaluator" tr /\
  if completed r then length (func_calls "ImageNetEvaluator" tr) = 4
  else length (func_calls "ImageNetEvaluator" tr) <= 4.

Definition labels : list string :=
  ["Original Model Accuracy: ";
   "Quantized (INT8) Model Top-1 Accuracy: ";
   "CLE applied Model Top-1 accuracy on Quant Simulator: ";
   "Quantized (INT8) Model Top-1 Accuracy After Bias Correction: "].

(** What is printed is the result of each evaluation a cell has asked
    for, under the cell's label, and [accuracy] holds the last of these
    results. *)
Definition accuracies_printed (r : result unit) (s : state W) : Prop :=
  let tr := trace s in
  func_calls "print" tr =
    zip_with (fun label v => ([VStr label; v], []))
             labels (method_results "evaluate" tr) /\
  globals s !! "accuracy" = last (method_results "evaluate" tr) /\
  if completed r then length (func_calls "print" tr) = 4 else True.

(** *** The simulators *)

(** The keywords of [compute_encodings]. *)
Definition encodings_keywords (config use_cuda : val)
    : list (string * val) :=
  [("forward_pass_callback",
    VPartial (VBoundMethod (VPipeline config) "evaluate")
             [("use_cuda", use_cuda)]);
   ("forward_pass_callback_args", VInt 1)].

(** [config] is bound to a dictionary that holds the directory and the
    flag the notebook was given. *)
Definition config_as_given (dataset_dir use_cuda : val) (s : state W)
    : Prop :=
  match globals s !! "config" with
  | Some (VDict items) =>
      items !! "dataset_dir" = Some dataset_dir /\
      items !! "use_cuda" = Some use_cuda
  | Some _ => False
  | None => calls (trace s) = []
  end.

(** Each simulator has its encodings computed as soon as it is built, with
    [evaluate] of the pipeline on the notebook's configuration as callback,
    [config['use_cuda']] bound in it, and one batch. *)
Definition encodings_from_one_batch (use_cuda : val) (r : result unit)
    (s : state W) : Prop :=
  let tr := trace s in
  match globals s !! "config" with
  | Some config =>
      Forall (eq (encodings_keywords config use_cuda))
             (method_kwargs "compute_encodings" tr) /\
      Forall (fun c => c.2 = []) (method_calls "compute_encodings" tr) /\
      map fst (method_calls "compute_encodings" tr)
        = func_results "QuantizationSimModel" tr
  | None => calls tr = []
  end.

(** The quantization keywords of a simulator. *)
Definition sim_settings (kwargs : list (string * val)) : list (option val) :=
  map (fun key => kwarg key kwargs)
      ["quant_scheme"; "rounding_mode"; "default_output_bw";
       "default_param_bw"; "in_place"].

Definition int8_settings (in_place : option val) : list (option val) :=
  [Some (VEnum "QuantScheme" "post_training_tf_enhanced");
   Some (VStr "nearest"); Some (VInt 8); Some (VInt 8); in_place].

Definition bias_correction_params : list val * list (string * val) :=
  ([], [("weight_bw", VInt 8);
        ("act_bw", VInt 8);
        ("round_mode", VStr "nearest");
        ("quant_scheme", VEnum "QuantScheme" "post_training_tf_enhanced")]).

(** The three simulators and the parameters of bias correction have the
    same scheme, rounding mode and bit widths; the last simulator alone is
    given [in_place], which is [False]. *)
Definition quantization_settings_shared (r : result unit) (s : state W)
    : Prop :=
  let tr := trace s in
  is_prefix_or_all (completed r)
    (map (fun c => (c.1, sim_settings c.2))
         (func_calls "QuantizationSimModel" tr))
    [([], int8_settings None); ([], int8_settings None);
     ([], int8_settings (Some (VBool false)))] /\
  Forall (eq bias_correction_params) (func_calls "QuantParams" tr).

(** The first simulator is built on the copy batch norms were folded on,
    the other two on the loaded model. *)
Definition baseline_simulates_the_copy (r : result unit) (s : state W)
    : Prop :=
  let tr := trace s in
  let given := map (fun c => kwarg "model" c.2)
                   (func_calls "QuantizationSimModel" tr) in
  match loaded_model tr with
  | Some m =>
      is_prefix_or_all (completed r) given
        (map Some (func_results "copy.deepcopy" tr ++ [m; m])%list) /\
      Forall (eq [m]) (map fst (func_calls "copy.deepcopy" tr)) /\
      is_prefix_or_all (completed r)
        (map fst (func_calls "fold_all_batch_norms" tr))
        (map (fun v => [v]) (func_results "copy.deepcopy" tr))
  | None => given = []
  end.

(** Every tensor [torch.rand] is asked for has the shape [(1, 3, 224,
    224)] that [fold_all_batch_norms] and [equalize_model] are told. *)
Definition shapes_agree (r : result unit) (s : state W) : Prop :=
  let tr := trace s in
  Forall (fun c => VTuple c.1 = input_shape /\ c.2 = [])
         (func_calls "torch.rand" tr) /\
  Forall (fun c => kwarg "input_shapes" c.2 = Some input_shape)
         (func_calls "fold_all_batch_norms" tr
          ++ func_calls "equalize_model" tr)%list.

(** *** The setup cell *)

(** When a [raise] of the notebook's own is in the log, the run ended with
    the guard's exception, and all that was called is [os.makedirs],
    [resnet18] and [torch.cuda.is_available]. *)
Definition guard_stops_the_run (r : result unit) (s : state W) : Prop :=
  if notebook_raised (trace s) then
    r = Raise guard_exn /\
    map callee (calls (trace s))
      = ["os.makedirs"; "resnet18"; "torch.cuda.is_available"]
  else True.

(** [eval()] is called on the loaded model only, and once an evaluation
    has been asked for it has been called once, before it. *)
Definition eval_mode_set_first (r : result unit) (s : state W) : Prop :=
  let tr := trace s in
  match loaded_model tr with
  | Some m =>
      Forall (eq (m, [])) (method_calls "eval" tr) /\
      match method_calls "evaluate" tr with
      | [] => True
      | _ => method_calls "eval" (before_evaluation tr) = [(m, [])] /\
             method_calls "eval" tr = [(m, [])]
      end
  | None => method_calls "eval" tr = [] /\ method_calls "evaluate" tr = []
  end.

(** *** Bias correction *)

(** The loader is asked for validation data of the configured directory,
    its [data_loader] attribute is read at once, and [correct_bias] is
    given the loaded model, the parameters [QuantParams] returned and that
    attribute. *)
Definition bias_correction_inputs (dataset_dir : val) (r : result unit)
    (s : state W) : Prop :=
  let tr := trace s in
  Forall (eq ([], [("is_training", VBool false);
                   ("images_dir", dataset_dir);
                   ("image_size", image_size)]))
         (func_calls "ImageNetDataLoader" tr) /\
  getattr_calls "data_loader" tr = func_results "ImageNetDataLoader" tr /\
  match loaded_model tr with
  | Some m =>
      map (fun c => (c.1, kwarg "data_loader" c.2))
          (func_calls "correct_bias" tr)
      = zip_with (fun params loader => ([m; params], Some loader))
                 (func_results "QuantParams" tr)
                 (getattr_results "data_loader" tr)
  | None => func_calls "correct_bias" tr = []
  end.

(** All of the above. *)
Definition handovers (dataset_dir use_cuda : val) (r : result unit)
    (s : state W) : Prop :=
  config_as_given dataset_dir use_cuda s /\
  simulations_evaluated_with_defaults use_cuda r s /\
  evaluator_built_per_evaluation dataset_dir r s /\
  accuracies_printed r s /\
  encodings_from_one_batch use_cuda r s /\
  quantization_settings_shared r s /\
  baseline_simulates_the_copy r s /\
  shapes_agree r s /\
  guard_stops_the_run r s /\
  eval_mode_set_first r s /\
  bias_correction_inputs dataset_dir r s.

End Handovers.

(** The stand-in library at the calls of [data_loader] and of the
    configuration cell, and the constructors it can be told to fail. *)
Module MockCalls.

Import Mock.

Definition loader_made : result val * machine :=
  lib (loader_new image_size (VStr "data")) (loaded_machine false []).

Definition attribute_read : result val * machine :=
  lib (loader_attribute (VObj 2%positive)) loader_made.2.

Definition no_evaluator : list string := ["ImageNetEvaluator"].

Definition no_loader : list string := ["ImageNetDataLoader"].

Definition stamped : result string * machine :=
  clock stamp_format (fresh_machine false []).

Definition directory_made : result val * machine :=
  lib (makedirs_call (logdir_of "2021-06-01-12-00-00")) stamped.2.

End MockCalls.

(** ** The callback, when it is called *)

Section Callback.

Context {W : Type}.
Variable ext : call -> W -> result val * W.
Variables image_size batch_size num_workers : val.

(** A run stops early only where a library call has raised or the guard
    of the setup cell has: no name is missing, no key, no attribute. *)
Definition stops_only_where_raised (r : result unit) (s : state W) : Prop :=
  exception_flow only_the_guard r (trace s).

(** [def evaluate(self, model, iterations=None, use_cuda=False)]: the
    parameters after [self], each with its default if it has one. *)
Definition evaluate_parameters : list (string * option val) :=
  [("model", None); ("iterations", Some VNone);
   ("use_cuda", Some (VBool false))].

(** Values of the parameters for positional arguments [args] and keywords
    [kwargs], as a call binds them: positional arguments first, then
    keywords, then defaults.  There is no binding when there are too many
    positional arguments, when a keyword names a parameter that a
    positional argument has filled, or when a parameter without default is
    left out. *)
Fixpoint bind_parameters (params : list (string * option val))
    (args : list val) (kwargs : list (string * val)) : option (list val) :=
  match params with
  | [] =>
      match args with
      | [] => Some []
      | _ :: _ => None
      end
  | (name, default) :: rest =>
      match args with
      | a :: args' =>
          match kwarg name kwargs with
          | Some _ => None
          | None => cons a <$> bind_parameters rest args' kwargs
          end
      | [] =>
          match kwarg name kwargs, default with
          | Some v, _ => cons v <$> bind_parameters rest [] kwargs
          | None, Some d => cons d <$> bind_parameters rest [] kwargs
          | None, None => None
          end
      end
  end.

(** A keyword that names no parameter. *)
Definition unexpected_keyword (params : list (string * option val))
    (kwargs : list (string * val)) : bool :=
  existsb (fun kv => negb (existsb (String.eqb kv.1) (map fst params)))
          kwargs.

(** [self.evaluate( *args, **kwargs)] *)
Definition call_evaluate (self : val) (args : list val)
    (kwargs : list (string * val)) : M W val :=
  if unexpected_keyword evaluate_parameters kwargs
  then raise (TypeError "evaluate() got an unexpected keyword argument")
  else
    match bind_parameters evaluate_parameters args kwargs with
    | Some [model; iterations; use_cuda] =>
        evaluate ext image_size batch_size num_workers
                 self model iterations use_cuda
    | _ => raise (TypeError "evaluate() arguments")
    end.

(** Calling a value the notebook has made callable.  The only one is
    [partial(data_pipeline.evaluate, use_cuda=...)], and
    [partial(func, **keywords)( *args, **kwargs)] is
    [func( *args, **{**keywords, **kwargs})]: a keyword of the call
    overrides the keyword of the same name bound in the partial. *)
Definition call_value (f : val) (args : list val)
    (kwargs : list (string * val)) : M W val :=
  match f with
  | VPartial (VBoundMethod self name) keywords =>
      if String.eqb name "evaluate"
      then call_evaluate self args (kwargs ++ keywords)
      else raise (AttributeError name)
  | _ => raise (TypeError "object is not callable")
  end.

(** The callback the cells hand to [compute_encodings]. *)
Definition encodings_callback (config use_cuda : val) : val :=
  VPartial (VBoundMethod (VPipeline config) "evaluate")
           [("use_cuda", use_cuda)].

(** *** The operations the notebook calls *)

Definition api : list string :=
  ["os.makedirs"; "resnet18"; "torch.cuda.is_available"; "torch.device";
   "to"; "eval"; "ImageNetEvaluator"; "evaluate"; "print"; "torch.rand";
   "copy.deepcopy"; "fold_all_batch_norms"; "QuantizationSimModel";
   "compute_encodings"; "model"; "equalize_model"; "ImageNetDataLoader";
   "data_loader"; "QuantParams"; "correct_bias"; "torch.save"].

(** Those that ask for an accelerator or move an object to one. *)
Definition placement_api : list string :=
  ["torch.cuda.is_available"; "torch.device"; "to"].

(** The call is of an operation named in [names]. *)
Definition known (names : list string) (c : call) : bool :=
  existsb (String.eqb (callee c)) names.

(** What one call of the callback, from [s] to [s'], leaves in the log:
    at most one evaluator, built from [dataset_dir] and the fixed
    settings and evaluated on at once; no other operation, no [print],
    and the namespace as it was. *)
Definition callback_log (dataset_dir : val) (s s' : state W) : Prop :=
  exists evs,
    trace s' = (trace s ++ evs)%list /\
    globals s' = globals s /\
    Forall (eq ([dataset_dir],
                [("image_size", image_size);
                 ("batch_size", batch_size);
                 ("num_workers", num_workers)]))
           (func_calls "ImageNetEvaluator" evs) /\
    map fst (method_calls "evaluate" evs)
      = func_results "ImageNetEvaluator" evs /\
    length (func_calls "ImageNetEvaluator" evs) <= 1 /\
    forallb (known ["ImageNetEvaluator"; "evaluate"]) (calls evs) = true /\
    func_calls "print" evs = [].

(** From [s] to [s'] nothing is printed and no name is bound. *)
Definition silent (s s' : state W) : Prop :=
  globals s' = globals s /\
  exists evs,
    trace s' = (trace s ++ evs)%list /\ func_calls "print" evs = [].

(** *** Moves to the accelerator, and nothing else *)

(** [moves_gated], and besides: the run stops early only where a call
    has raised; every operation called is one of [api]; with
    [config['use_cuda']] false none of them is of [placement_api]; and the
    [use_cuda] argument of the evaluations the cells ask for is
    [config['use_cuda']] or [False]. *)
Definition moves_gated_and_nothing_else (use_cuda : val) (r : result unit)
    (s : state W) : Prop :=
  stops_only_where_raised r s /\
  moves_gated use_cuda r s /\
  forallb (known api) (calls (trace s)) = true /\
  (if truthy use_cuda then True
   else forallb (fun c => negb (known placement_api c)) (calls (trace s))
        = true) /\
  simulations_evaluated_with_defaults use_cuda r s.

End Callback.

(** ** What the run writes *)

Section Artifacts.

Context {W : Type}.
Variable ext : call -> W -> result val * W.
Variable clock : string -> W -> result string * W.
Variable is_dir : W -> string -> Prop.
(** The files written so far, those a library keeps for itself apart. *)
Variable artifacts : W -> gset string.

(** Every operation of [api] but [torch.save]. *)
Definition quiet_api : list string :=
  filter (fun name => negb (String.eqb name "torch.save")) api.

(** What is taken of the libraries: reading the clock writes no file, nor
    does an operation of [quiet_api]; [torch.save], when it returns, has
    written the file it was told to write and no other. *)
Definition only_save_writes : Prop :=
  (forall fmt w r w', clock fmt w = (r, w') -> artifacts w' = artifacts w) /\
  (forall c w r w',
      ext c w = (r, w') -> known quiet_api c = true ->
      artifacts w' = artifacts w) /\
  (forall model path w v w',
      ext (Func "torch.save" [model; VStr path] []) w = (Ok v, w') ->
      artifacts w' = {[path]} ∪ artifacts w).

(** The state of the machine an event starts in. *)
Definition world_of (e : event W) : option W :=
  match e with
  | Called w _ _ => Some w
  | Clock w _ _ => Some w
  | Raises _ => None
  end.

(** [one_checkpoint], and besides: the run stops early only where a call
    has raised; every operation called is one of [api]; every call starts
    with the files the run started with; a run that ends normally leaves
    these and one more, at
    [os.path.join(config['logdir'], 'quantized_model.pth')]; a run that
    raises without having called [torch.save] leaves these. *)
Definition one_artifact (w0 : W) (r : result unit) (s : state W) : Prop :=
  stops_only_where_raised r s /\
  one_checkpoint is_dir r s /\
  forallb (known api) (calls (trace s)) = true /\
  Forall (fun w => artifacts w = artifacts w0) (omap world_of (trace s)) /\
  match r with
  | Ok _ =>
      exists dir,
        (exists config,
            globals s !! "config" = Some (VDict config) /\
            config !! "logdir" = Some (VStr dir)) /\
        artifacts (world s)
          = {[os_path_join dir checkpoint_name]} ∪ artifacts w0
  | Raise _ =>
      func_calls "torch.save" (trace s) = [] ->
      artifacts (world s) = artifacts w0
  end.

End Artifacts.

Module MockFiles.

Import Mock.

(** The files of the stand-in file system. *)
Definition artifacts (w : machine) : gset string := dom (files w).

End MockFiles.

(** ** The transforms work in place *)

Section InPlace.

Context {W : Type}.
Variable ext : call -> W -> result val * W.
Variable Contents : Type.
Variable alive : W -> val -> Prop.
Variable apart : W -> val -> val -> Prop.
Variable snapshot : W -> val -> Contents.









End InPlace.
(** ** Rules of the weakest precondition *)

Section Rules.

Context {W : Type}.
Variable ext : call -> W -> result val * W.
Variable clock : string -> W -> result string * W.

Lemma wp_elim {A} (m : M W A) Q s r s' :
  wp m Q s -> m s = (r, s') -> Q r s'.
Proof. unfold wp. intros H E. by rewrite E in H. Qed.

Lemma wp_eq {A} (m : M W A) s out :
  wp m (fun r s' => (r, s') = out) s -> m s = out.
Proof. unfold wp. by destruct (m s). Qed.

Lemma wp_ret {A} (a : A) (Q : result A -> state W -> Prop) s :
  Q (Ok a) s -> wp (ret a) Q s.
Proof. done. Qed.

Lemma wp_bind {A B} (m : M W A) (k : A -> M W B) Q s :
  wp m (fun r s' => match r with
                    | Ok a => wp (k a) Q s'
                    | Raise e => Q (Raise e) s'
                    end) s ->
  wp (bind m k) Q s.
Proof. unfold wp, bind. by destruct (m s) as [[a|e] s']. Qed.

Lemma wp_bind_ret {A B} (a : A) (k : A -> M W B) Q s :
  wp (k a) Q s -> wp (bind (ret a) k) Q s.
Proof. done. Qed.

Lemma wp_bind_bind {A B C} (m : M W A) (k : A -> M W B)
    (k' : B -> M W C) Q s :
  wp (bind m (fun a => bind (k a) k')) Q s -> wp (bind (bind m k) k') Q s.
Proof. unfold wp, bind. by destruct (m s) as [[a|e] s']. Qed.

Lemma wp_raise {A} e (Q : result A -> state W -> Prop) w g l :
  Q (Raise e) (State w g (rev (Raises e :: l))) ->
  wp (raise e) Q (State w g (rev l)).
Proof. done. Qed.

Lemma wp_bind_raise {A B} e (k : A -> M W B) Q w g l :
  Q (Raise e) (State w g (rev (Raises e :: l))) ->
  wp (bind (raise e) k) Q (State w g (rev l)).
Proof. done. Qed.

Lemma wp_call c (Q : result val -> state W -> Prop) w g l :
  (forall r w', ext c w = (r, w') ->
                Q r (State w' g (rev (Called w c r :: l)))) ->
  wp (call_ext ext c) Q (State w g (rev l)).
Proof.
  intros H. unfold wp, call_ext. simpl.
  destruct (ext c w) as [r w'] eqn:E. by apply H.
Qed.

Lemma wp_bind_call {B} c (k : val -> M W B) Q w g l :
  (forall v w', ext c w = (Ok v, w') ->
                wp (k v) Q (State w' g (rev (Called w c (Ok v) :: l)))) ->
  (forall e w', ext c w = (Raise e, w') ->
                Q (Raise e) (State w' g (rev (Called w c (Raise e) :: l)))) ->
  wp (bind (call_ext ext c) k) Q (State w g (rev l)).
Proof.
  intros H1 H2. unfold wp, bind, call_ext. simpl.
  destruct (ext c w) as [[v|e] w'] eqn:E; simpl; [by apply H1|by apply H2].
Qed.

Lemma wp_bind_clock {B} fmt (k : string -> M W B) Q w g l :
  (forall v w', clock fmt w = (Ok v, w') ->
                wp (k v) Q (State w' g (rev (Clock w fmt (Ok v) :: l)))) ->
  (forall e w', clock fmt w = (Raise e, w') ->
                Q (Raise e) (State w' g (rev (Clock w fmt (Raise e) :: l)))) ->
  wp (bind (now_strftime clock fmt) k) Q (State w g (rev l)).
Proof.
  intros H1 H2. unfold wp, bind, now_strftime. simpl.
  destruct (clock fmt w) as [[v|e] w'] eqn:E; simpl; [by apply H1|by apply H2].
Qed.

Lemma wp_assign x v (Q : result unit -> state W -> Prop) w g t :
  Q (Ok tt) (State w (<[x := v]> g) t) -> wp (assign x v) Q (State w g t).
Proof. done. Qed.

Lemma wp_bind_assign {B} x v (k : unit -> M W B) Q w g t :
  wp (k tt) Q (State w (<[x := v]> g) t) ->
  wp (bind (assign x v) k) Q (State w g t).
Proof. done. Qed.

Lemma wp_bind_load {B} x v (k : val -> M W B) Q w (g : gmap string val) t :
  g !! x = Some v ->
  wp (k v) Q (State w g t) -> wp (bind (load x) k) Q (State w g t).
Proof. intros H HQ. unfold wp, bind, load. simpl. by rewrite H. Qed.

Lemma wp_bind_subscript {B} key v (k : val -> M W B) Q
    (items : gmap string val) s :
  items !! key = Some v ->
  wp (k v) Q s -> wp (bind (subscript (VDict items) key) k) Q s.
Proof. intros H HQ. unfold wp, bind, subscript. by rewrite H. Qed.

End Rules.

(** Symbolic execution of a cell from a state whose namespace is a chain of
  insertions: [fin] closes the goals left where the run ends. *)

Ltac wp_unfold m :=
lazymatch m with
| ?f _ _ _ _ _ _ _ _ _ => unfold f
| ?f _ _ _ _ _ _ _ _ => unfold f
| ?f _ _ _ _ _ _ _ => unfold f
| ?f _ _ _ _ _ _ => unfold f
| ?f _ _ _ _ _ => unfold f
| ?f _ _ _ _ => unfold f
| ?f _ _ _ => unfold f
| ?f _ _ => unfold f
| ?f _ => unfold f
| ?f => unfold f
end.

Ltac wp_lookup m k cont :=
lazymatch m with
| <[?k' := ?v]> ?m' =>
    tryif constr_eq k' k then cont v else wp_lookup m' k cont
end.

Ltac wp_if v :=
lazymatch goal with
| H : truthy v = _ |- _ => rewrite H
| _ => destruct (truthy v) eqn:?
end.

Ltac wp_step hook fin :=
lazymatch goal with
| |- wp (bind (bind _ _) _) _ _ => apply wp_bind_bind
| |- wp (bind (ret _) _) _ _ => apply wp_bind_ret
| |- wp (bind (raise _) _) _ _ => apply wp_bind_raise; fin
| |- wp (bind (assign _ _) _) _ _ => apply wp_bind_assign
| |- wp (bind (load ?x) _) _ (State _ ?g _) =>
    first
      [ wp_lookup g x
          ltac:(fun v => apply (wp_bind_load x v); [vm_compute; reflexivity|])
      | lazymatch goal with
        | H : g !! x = Some ?v |- _ => apply (wp_bind_load x v); [exact H|]
        end ]
| |- wp (bind (subscript (VDict ?g) ?x) _) _ _ =>
    first
      [ wp_lookup g x
          ltac:(fun v =>
                  apply (wp_bind_subscript x v); [vm_compute; reflexivity|])
      | lazymatch goal with
        | H : g !! x = Some ?v |- _ =>
            apply (wp_bind_subscript x v); [exact H|]
        end ]
| |- wp (bind (call_ext _ _) _) _ _ =>
    apply wp_bind_call;
    [intros ?v ?w ?Hcall; hook|intros ?e ?w ?Hcall; hook; fin]
| |- wp (bind (now_strftime _ _) _) _ _ =>
    apply wp_bind_clock; [intros ?v ?w ?Hclock|intros ?e ?w ?Hclock; fin]
| |- wp (bind (if truthy ?v then _ else _) _) _ _ => wp_if v
| |- wp (bind ?m _) _ _ => wp_unfold m
| |- wp (ret _) _ _ => apply wp_ret; fin
| |- wp (raise _) _ _ => apply wp_raise; fin
| |- wp (assign _ _) _ _ => apply wp_assign; fin
| |- wp (call_ext _ _) _ _ =>
    apply wp_call; intros [?v|?e] ?w ?Hcall; hook; fin
| |- wp (if truthy ?v then _ else _) _ _ => wp_if v
| |- wp ?m _ _ => wp_unfold m
end.

(** [wp_run_with hook fin] runs [hook] after each library call. *)
Ltac wp_run_with hook fin := repeat (wp_step hook fin; cbv beta iota).
Ltac wp_run fin := wp_run_with idtac fin.

Ltac wp_start :=
lazymatch goal with
| |- wp _ _ (init ?w) => change (init w) with (State w ∅ (rev []))
end.

Module OrderFacts.
Import Order.

Lemma advance_head groups st groups' :
  advance groups st = Some groups' ->
  groups' `suffix_of` groups /\
  exists g rest, groups' = g :: rest /\ existsb (step_eqb st) g = true.
Proof.
  induction groups as [|g groups IH]; simpl; [done|].
  destruct (existsb (step_eqb st) g) eqn:E.
  - intros [= <-]. split; [done|]. by exists g, groups.
  - intros [Hs Hg]%IH. split; [|done]. by apply suffix_cons_r.
Qed.

Lemma advance_follows groups st groups' done :
  advance groups st = Some groups' ->
  follows groups' (st :: done) -> follows groups (st :: done).
Proof.
  induction groups as [|g groups IH]; simpl; [done|].
  destruct (existsb (step_eqb st) g) eqn:E.
  - by intros [= <-].
  - intros Ha Hf. apply follows_skip. by apply IH.
Qed.

Lemma in_order_follows groups done :
  in_order groups done = true -> follows groups done.
Proof.
  revert groups. induction done as [|st rest IH]; intros groups; simpl.
  - intros _. constructor.
  - destruct (advance groups st) as [groups'|] eqn:E; [|done].
    intros H. eapply advance_follows; [done|].
    destruct (advance_head _ _ _ E) as (_ & g & tl & -> & Hin).
    apply follows_here; [done|]. by apply IH.
Qed.

Lemma advance_mono pre groups st later :
  advance groups st = Some later ->
  exists first, advance (pre ++ groups) st = Some first /\
                later `suffix_of` first.
Proof.
  intros Ha. induction pre as [|g pre IH]; simpl.
  - by exists later.
  - destruct (existsb (step_eqb st) g).
    + eexists. split; [done|].
      destruct (advance_head _ _ _ Ha) as [Hs _].
      apply suffix_cons_r. by apply suffix_app_r.
    + done.
Qed.

Lemma in_order_mono done groups' groups :
  groups' `suffix_of` groups ->
  in_order groups' done = true -> in_order groups done = true.
Proof.
  revert groups' groups. induction done as [|st rest IH]; [done|].
  intros groups' groups [pre ->]. simpl.
  destruct (advance groups' st) as [later|] eqn:E; [|done].
  destruct (advance_mono pre _ _ _ E) as (first & -> & Hs).
  by apply IH.
Qed.

Lemma follows_in_order groups done :
  follows groups done -> in_order groups done = true.
Proof.
  induction 1 as [|g groups st rest Hin _ IH|g groups rest _ IH]; simpl.
  - done.
  - by rewrite Hin.
  - eapply in_order_mono; [|done]. by apply suffix_cons_r.
Qed.

Lemma follows_prefix groups done all :
  done `prefix_of` all -> follows groups all -> follows groups done.
Proof.
  intros [k ->] H%follows_in_order. apply in_order_follows.
  revert groups H. induction done as [|st rest IH]; [done|].
  intros groups. simpl. destruct (advance groups st); [apply IH|done].
Qed.

End OrderFacts.

Section Properties.

Context {W : Type}.
Variable ext : call -> W -> result val * W.
Variable clock : string -> W -> result string * W.
Variables image_size batch_size num_workers : val.

Local Notation "'run_with'" :=
  (notebook_with ext clock image_size batch_size num_workers).
Local Notation "'evaluate_of'" :=
  (evaluate ext image_size batch_size num_workers).

(** *** The guard *)

Lemma guard_not_last (t before : list (event W)) w c r :
  (t ++ [Called w c r])%list = (before ++ [Raises guard_exn])%list -> False.
Proof. by intros [_ ?]%app_inj_tail. Qed.

(** C1: the guard of the model setup cell raises exactly when
    [config['use_cuda']] is true and [torch.cuda.is_available()] answers
    false; when [use_cuda] is false it does nothing, and when CUDA is
    available it moves the model to the device and raises nothing of its
    own. *)
Theorem use_cuda_guard_raises_iff (s : state W) (config : gmap string val)
    (use_cuda model : val) :
  globals s !! "config" = Some (VDict config) ->
  config !! "use_cuda" = Some use_cuda ->
  globals s !! "model" = Some model ->
  guard_behaviour ext s use_cuda model.
Proof.
  intros Hc Hu Hm. destruct s as [w g t]. simpl in *.
  assert (Hrun : use_cuda_guard ext (State w g t) =
    if truthy use_cuda then
      match ext cuda_query w with
      | (Ok a, w1) =>
          if truthy a then
            match ext cuda_device w1 with
            | (Ok device, w2) =>
                let '(r, w3) := ext (Method model "to" [device] []) w2 in
                (forwarded r,
                 State w3 g (t ++ [Called w cuda_query (Ok a);
                                   Called w1 cuda_device (Ok device);
                                   Called w2 (Method model "to" [device] []) r]))
            | (Raise e, w2) =>
                (Raise e, State w2 g (t ++ [Called w cuda_query (Ok a);
                                            Called w1 cuda_device (Raise e)]))
            end
          else (Raise guard_exn,
                State w1 g (t ++ [Called w cuda_query (Ok a);
                                  Raises guard_exn]))
      | (Raise e, w1) =>
          (Raise e, State w1 g (t ++ [Called w cuda_query (Raise e)]))
      end
    else (Ok tt, State w g t)).
  { apply wp_eq. rewrite <- (rev_involutive t).
    wp_run ltac:(simpl; rewrite ?rev_involutive, <- ?app_assoc; simpl;
                 unfold cuda_query, cuda_device;
                 repeat (match goal with
                         | H : ext _ _ = _ |- _ => rewrite H; clear H
                         | H : truthy _ = _ |- _ => rewrite H; clear H
                         end; cbv beta iota);
                 reflexivity). }
  unfold guard_behaviour, guard_raised, cuda_reported. simpl.
  rewrite Hrun. clear Hrun. split; [|split].
  - destruct (truthy use_cuda); [|by split; [intros [? _]|intros [? _]]].
    destruct (ext cuda_query w) as [[a|e] w1] eqn:Ea.
    + destruct (truthy a) eqn:Ha.
      * split.
        -- intros [Hr [before Hb]]. exfalso.
           destruct (ext cuda_device w1) as [[device|e] w2].
           ++ destruct (ext (Method model "to" [device] []) w2) as [r w3].
              simpl in Hb.
              change (t ++ [Called w cuda_query (Ok a);
                            Called w1 cuda_device (Ok device);
                            Called w2 (Method model "to" [device] []) r])%list
                with (t ++ [Called w cuda_query (Ok a);
                            Called w1 cuda_device (Ok device)] ++
                           [Called w2 (Method model "to" [device] []) r])%list
                in Hb.
              rewrite app_assoc in Hb. by eapply guard_not_last.
           ++ simpl in Hb.
              change (t ++ [Called w cuda_query (Ok a);
                            Called w1 cuda_device (Raise e)])%list
                with (t ++ [Called w cuda_query (Ok a)] ++
                           [Called w1 cuda_device (Raise e)])%list in Hb.
              rewrite app_assoc in Hb. by eapply guard_not_last.
        -- intros [_ (a' & w' & [= <- <-] & Ha')]. congruence.
      * split; [|intros _; simpl; split; [done|]].
        -- intros _. split; [done|]. by exists a, w1.
        -- exists (t ++ [Called w cuda_query (Ok a)])%list.
           by rewrite <- app_assoc.
    + split.
      * intros [_ [before Hb]]. simpl in Hb. exfalso.
        by eapply guard_not_last.
      * by intros [_ (a' & w' & [=] & _)].
  - by intros ->.
  - intros -> a w1 device w2 r w3 -> -> -> ->. done.
Qed.

(** *** evaluate *)

Lemma evaluate_unfold (config : gmap string val) model iterations use_cuda
    (s : state W) :
  evaluate_of (VPipeline (VDict config)) model iterations use_cuda s =
  match config !! "dataset_dir" with
  | Some images_dir =>
      match ext (evaluator_new image_size batch_size num_workers images_dir)
                (world s) with
      | (Ok evaluator, w1) =>
          let '(r, w2) :=
            ext (evaluator_evaluate evaluator model iterations use_cuda) w1 in
          (r, State w2 (globals s)
                (trace s ++
                 [Called (world s)
                    (evaluator_new image_size batch_size num_workers images_dir)
                    (Ok evaluator);
                  Called w1
                    (evaluator_evaluate evaluator model iterations use_cuda)
                    r]))
      | (Raise e, w1) =>
          (Raise e,
           State w1 (globals s)
                 (trace s ++
                  [Called (world s)
                     (evaluator_new image_size batch_size num_workers images_dir)
                     (Raise e)]))
      end
  | None =>
      (Raise (KeyError "dataset_dir"),
       State (world s) (globals s)
             (trace s ++ [Raises (KeyError "dataset_dir")]))
  end.
Proof.
  unfold evaluate, bind, self_config, subscript, call_ext, raise, ret.
  simpl. destruct (config !! "dataset_dir") as [images_dir|]; [|done].
  simpl. fold (evaluator_new image_size batch_size num_workers images_dir).
  destruct (ext _ (world s)) as [[evaluator|e] w1]; [|done]. simpl.
  fold (evaluator_evaluate evaluator model iterations use_cuda).
  destruct (ext _ w1) as [r w2]. by rewrite <- app_assoc.
Qed.

(** C2: [evaluate] returns what the evaluator's [evaluate] returns for the
    same model, iterations and use_cuda, the evaluator being built from the
    configured dataset directory and the fixed image, batch and worker
    settings; nothing is done to the result, and nothing else is called. *)
Theorem evaluate_returns_evaluator_result (config : gmap string val)
    (images_dir model iterations use_cuda : val) (s : state W)
    (evaluator : val) (w1 : W) (r : result val) (w2 : W) :
  config !! "dataset_dir" = Some images_dir ->
  ext (evaluator_new image_size batch_size num_workers images_dir) (world s)
    = (Ok evaluator, w1) ->
  ext (evaluator_evaluate evaluator model iterations use_cuda) w1 = (r, w2) ->
  evaluate_of (VPipeline (VDict config)) model iterations use_cuda s =
    (r, State w2 (globals s)
          (trace s ++
           [Called (world s)
              (evaluator_new image_size batch_size num_workers images_dir)
              (Ok evaluator);
            Called w1 (evaluator_evaluate evaluator model iterations use_cuda)
              r])).
Proof. intros Hd Hn He. by rewrite evaluate_unfold, Hd, Hn, He. Qed.

(** C3, as the code has it: what [evaluate] does is fixed by its arguments
    and by the [dataset_dir] entry of the configuration the pipeline was
    built with; the other entries play no part. *)
Theorem evaluate_depends_on_dataset_dir (config1 config2 : gmap string val)
    (model iterations use_cuda : val) (s : state W) :
  config1 !! "dataset_dir" = config2 !! "dataset_dir" ->
  evaluate_of (VPipeline (VDict config1)) model iterations use_cuda s =
  evaluate_of (VPipeline (VDict config2)) model iterations use_cuda s.
Proof. intros H. by rewrite !evaluate_unfold, H. Qed.

(** *** Exceptions *)

Lemma flow_ok {A} own (a : A) (l : list (event W)) :
  Forall (fun e => raising e = None) l ->
  exception_flow own (Ok a) (rev l).
Proof. intros H. by apply Forall_rev. Qed.

Lemma flow_raise {A} (own : exn -> Prop) x last (l : list (event W)) :
  raising last = Some x ->
  (forall y, last = Raises y -> own y) ->
  Forall (fun e => raising e = None) l ->
  exception_flow (A := A) own (Raise x) (rev (last :: l)).
Proof.
  intros Hl Ho H. exists (rev l), last. simpl.
  split; [done|]. split; [by apply Forall_rev|]. done.
Qed.

Lemma flow_app {A} own (r : result A) (t evs : list (event W)) :
  Forall (fun e => raising e = None) t ->
  exception_flow own r evs ->
  exception_flow own r (t ++ evs).
Proof.
  intros Ht. destruct r as [a|x]; simpl.
  - intros H. by apply Forall_app.
  - intros (before & last & -> & Hb & Hl & Ho).
    exists (t ++ before)%list, last. rewrite app_assoc.
    split; [done|]. split; [by apply Forall_app|]. done.
Qed.

(** C4: the notebook handles no exception.  In a run of the notebook, and
    in a call of [evaluate], the exception raised by a library call ends
    the run as it is: a run that ends normally saw no call raise, and a run
    that ends with an exception ends with the one its last call raised,
    the guard of the setup cell being the only [raise] of the notebook's
    own. *)
Theorem exceptions_propagate_unmodified :
  (forall dataset_dir use_cuda w0,
      wp (run_with dataset_dir use_cuda)
         (fun r s => exception_flow only_the_guard r (trace s)) (init w0)) /\
  (forall (config : gmap string val) images_dir model iterations use_cuda s,
      config !! "dataset_dir" = Some images_dir ->
      exists evs,
        trace (evaluate_of (VPipeline (VDict config))
                           model iterations use_cuda s).2
          = (trace s ++ evs)%list /\
        exception_flow nothing_of_its_own
          (evaluate_of (VPipeline (VDict config))
                       model iterations use_cuda s).1 evs).
Proof.
  split.
  - intros dataset_dir use_cuda w0. wp_start.
    wp_run ltac:(first
      [ apply flow_ok; repeat constructor
      | apply flow_raise;
        [ reflexivity
        | first [ by intros y [= <-] | by intros y [=] ]
        | repeat constructor ] ]).
  - intros config images_dir model iterations use_cuda s Hd.
    rewrite evaluate_unfold, Hd.
    destruct (ext _ (world s)) as [[evaluator|e] w1].
    + destruct (ext _ w1) as [[v|e] w2]; simpl.
      * eexists. split; [done|]. by repeat constructor.
      * eexists. split; [done|].
        eexists [_], _. split; [done|]. split; [by repeat constructor|].
        split; [done|]. by intros y [=].
    + simpl. eexists. split; [done|].
      eexists [], _. split; [done|]. split; [done|].
      split; [done|]. by intros y [=].
Qed.

(** *** Order of the steps *)

(** C5, as the code has it: the model is loaded and evaluated, a simulator
    is built and its encodings computed, and then a simulation and an
    evaluation follow each of the two transforms, equalization first and
    bias correction second, before the model is saved.  A run that raises
    stops somewhere along this sequence. *)
Theorem steps_run_in_order dataset_dir use_cuda w0 :
  wp (run_with dataset_dir use_cuda) steps_in_order (init w0).
Proof.
  wp_start.
  wp_run ltac:(split;
    [ vm_compute; first [reflexivity | eexists; reflexivity]
    | apply OrderFacts.in_order_follows; vm_compute; reflexivity ]).
Qed.

(** *** Bias correction samples *)

(** C10: [correct_bias] is only ever called with [num_quant_samples] and
    [num_bias_correct_samples] equal to 1, and a run that ends normally
    calls it once: the cell that sets the two names leaves 1 in both,
    whatever they held, although its first two statements leave 16. *)
Theorem correct_bias_samples_are_one :
  (forall dataset_dir use_cuda w0,
      wp (run_with dataset_dir use_cuda) bias_samples_are_one (init w0)) /\
  (forall s : state W,
      globals (typical_bias_params s).2 !! "num_quant_samples"
        = Some (VInt 16) /\
      globals (typical_bias_params s).2 !! "num_bias_correct_samples"
        = Some (VInt 16) /\
      globals (cell_bias_params s).2 !! "num_quant_samples"
        = Some (VInt 1) /\
      globals (cell_bias_params s).2 !! "num_bias_correct_samples"
        = Some (VInt 1)).
Proof.
  split.
  - intros dataset_dir use_cuda w0. wp_start.
    wp_run ltac:(vm_compute; first [reflexivity | repeat constructor]).
  - intros [w g t]. simpl. by simplify_map_eq.
Qed.

End Properties.

(** Closes [exception_flow] where a run ends. *)
Ltac flow_end :=
  first
    [ apply flow_ok; repeat constructor
    | apply flow_raise;
      [ reflexivity
      | first [ by intros y [= <-] | by intros y [=] ]
      | repeat constructor ] ].

(** ** The baseline simulation works on a copy *)

Section Footprints.

Context {W : Type}.
Variable ext : call -> W -> result val * W.
Variable clock : string -> W -> result string * W.
Variables image_size batch_size num_workers : val.
Variable Contents : Type.
Variable alive : W -> val -> Prop.
Variable apart : W -> val -> val -> Prop.
Variable snapshot : W -> val -> Contents.

Local Notation "'run_with'" :=
  (notebook_with ext clock image_size batch_size num_workers).

Lemma immediate_insert (items : gmap string val) key0 v0 :
  immediate v0 ->
  (forall key v, items !! key = Some v -> immediate v) ->
  forall key v, <[key0 := v0]> items !! key = Some v -> immediate v.
Proof.
  intros H0 H key v. rewrite lookup_insert. case_decide.
  - by intros [= <-].
  - apply H.
Qed.

Lemma immediate_empty key v :
  (∅ : gmap string val) !! key = Some v -> immediate v.
Proof. by rewrite lookup_empty. Qed.

Ltac solve_immediate :=
  repeat lazymatch goal with
         | |- immediate input_shape => unfold input_shape
         | |- immediate (VDict _) => apply immediate_dict
         | |- immediate _ => first [assumption | constructor]
         | |- Forall _ _ => simpl; constructor
         | |- forall key v, <[_ := _]> _ !! key = Some v -> immediate v =>
             apply immediate_insert
         | |- forall key v, ∅ !! key = Some v -> immediate v =>
             apply immediate_empty
         end.

Ltac solve_apart Himm :=
  first [ assumption | apply Himm; solve_immediate ].

Ltac solve_args Himm :=
  simpl;
  repeat lazymatch goal with
         | |- Forall _ (_ :: _) => constructor; [solve_apart Himm|]
         | |- Forall _ [] => constructor
         end.

(** Follow the calls made from the world where [m] is known to be alive
    and unchanged, one call at a time. *)
Ltac frame_walk Himm Hframe Hcopy m :=
  repeat match goal with
    | Ha : alive ?w m, Hs : snapshot ?w m = _, Hc : ext ?c ?w = (?r, ?w')
      |- _ =>
        let Ha' := fresh "Ha" in
        let Hs' := fresh "Hs" in
        let Hkeep := fresh "Hkeep" in
        let Hres := fresh "Hres" in
        first
          [ lazymatch c with Func "copy.deepcopy" _ _ => idtac end;
            destruct (Hcopy _ _ _ _ Hc Ha) as (Ha' & Hs' & Hkeep & Hres)
          | let Hargs := fresh "Hargs" in
            assert (Hargs : Forall (apart w m) (call_args c))
              by solve_args Himm;
            destruct (Hframe _ _ _ _ _ Hc Ha Hargs)
              as (Ha' & Hs' & Hkeep & Hres) ];
        apply (fun H => eq_trans H Hs) in Hs';
        repeat match goal with
               | Hx : apart w m _ |- _ => apply Hkeep in Hx
               end;
        lazymatch r with
        | Ok ?v => pose proof (Hres v eq_refl)
        | _ => idtac
        end;
        clear Ha Hs Hc Hkeep Hres
    end.

Ltac alive_walk Halive Hload m :=
  lazymatch goal with
  | Hc : ext (Func "resnet18" _ _) _ = (Ok m, _) |- _ =>
      pose proof (Hload _ _ _ _ Hc); clear Hc
  end;
  repeat match goal with
         | Ha : alive ?w m, Hc : ext _ ?w = (_, _) |- _ =>
             pose proof (Halive _ _ _ _ _ Hc Ha); clear Ha Hc
         end.

Ltac equalize_next :=
  let r' := fresh "r" in
  let w' := fresh "w" in
  let E := fresh "E" in
  intros r' w' E; apply wp_eq;
  wp_run ltac:(
    unfold equalize_call in E; cbn [world] in E;
    lazymatch goal with
    | Hc : ext (Func "equalize_model" _ _) _ = _ |- _ =>
        rewrite E in Hc; injection Hc as -> ->
    end;
    reflexivity).

Ltac stage_end Himm Hframe Hcopy m :=
  cbn [world];
  split; [assumption|];
  split; [vm_compute; reflexivity|];
  split;
    [ cbn [drop length rev app trace copied_or_apart];
      repeat (constructor;
              [first [left; reflexivity | right; assumption | exact I]|]);
      constructor
    | split;
      [ vm_compute; first [reflexivity | eexists; reflexivity]
      | equalize_next ] ].

(** C9: once the cells before it have run, the baseline simulation cell
    leaves the loaded model as it is, provided the libraries respect
    footprints: the model is handed to [copy.deepcopy] and to nothing
    else, batch norms are folded on the copy, and the name [model] still
    denotes the loaded object, which the next cell hands to
    [equalize_model]. *)
Theorem baseline_simulation_keeps_model dataset_dir use_cuda w0 s :
  footprints_respected ext Contents alive apart snapshot ->
  immediate dataset_dir -> immediate use_cuda ->
  immediate image_size -> immediate batch_size -> immediate num_workers ->
  setup_cells ext image_size batch_size num_workers clock
              dataset_dir use_cuda (init w0) = (Ok tt, s) ->
  baseline_keeps_model ext image_size batch_size num_workers
                       Contents apart snapshot s.
Proof.
  intros Hfp Hd Hu Hi Hb Hn Hrun.
  unfold footprints_respected, untouched in Hfp.
  destruct Hfp as (Himm & Hframe & Hcopy & Halive & Hload).
  refine (wp_elim _
            (fun r s => match r with
                        | Ok _ => baseline_keeps_model
                                    ext image_size batch_size num_workers
                                    Contents apart snapshot s
                        | Raise _ => True
                        end) _ (Ok tt) s _ Hrun).
  clear Hrun s. unfold setup_cells. wp_start.
  wp_run ltac:(first
    [ exact I
    | unfold baseline_keeps_model;
      lazymatch goal with
      | Hc : ext (Func "resnet18" _ _) _ = (Ok ?m, _) |- _ =>
          exists m; split; [vm_compute; reflexivity|];
          alive_walk Halive Hload m;
          lazymatch goal with
          | Ha : alive ?w m |- _ =>
              assert (Hs : snapshot w m = snapshot w m) by reflexivity
          end;
          wp_run_with ltac:(frame_walk Himm Hframe Hcopy m)
                      ltac:(stage_end Himm Hframe Hcopy m)
      end ]).
Qed.

(** *** The transforms work in place *)




End Footprints.



(** ** What the stand-in libraries respect *)

Module MockFacts.

Import Mock.

Lemma effect_same locs w r :
  (forall v l, r = Ok v -> root v = Some l -> l ∈ locs) ->
  effect locs w w r.
Proof. intros H. repeat split; eauto. Qed.

Lemma effect_raise locs w e : effect locs w w (Raise e).
Proof. by apply effect_same. Qed.

Lemma effect_plain locs w v : root v = None -> effect locs w w (Ok v).
Proof. intros H. apply effect_same. intros ? l [= <-]. congruence. Qed.

Lemma effect_alloc locs o w :
  effect locs w (alloc o w).2 (alloc o w).1.
Proof.
  unfold alloc. simpl. set (l := fresh (dom (heap w))).
  assert (Hl : heap w !! l = None).
  { apply not_elem_of_dom. apply is_fresh. }
  repeat split; simpl.
  - done.
  - intros l' [x Hx]. destruct (decide (l = l')) as [->|Hne].
    + congruence.
    + rewrite lookup_insert_ne; eauto.
  - intros l' [x Hx] _. rewrite lookup_insert_ne; [done|]. congruence.
  - intros v l' [= <-] [= <-] [x Hx]. congruence.
Qed.

Lemma effect_touch locs l tag ret w :
  l ∈ locs ->
  (forall l', root ret = Some l' -> l' ∈ locs) ->
  effect locs w (touch l tag ret w).2 (touch l tag ret w).1.
Proof.
  intros Hl Hret. unfold touch.
  destruct (heap w !! l) as [o|] eqn:E; simpl; [|apply effect_raise].
  repeat split; simpl.
  - done.
  - intros l' [x Hx]. destruct (decide (l = l')) as [->|Hne].
    + rewrite lookup_insert_eq. eauto.
    + rewrite lookup_insert_ne; eauto.
  - intros l' _ Hn. rewrite lookup_insert_ne; [done|]. by intros ->.
  - intros v l' [= <-] Hr _. by apply Hret.
Qed.

Lemma effect_trans locs w w1 w2 r1 r2 :
  effect locs w w1 r1 -> effect locs w1 w2 r2 -> effect locs w w2 r2.
Proof.
  intros (Hd1 & Ha1 & Hk1 & _) (Hd2 & Ha2 & Hk2 & Hr2).
  repeat split.
  - set_solver.
  - eauto.
  - intros l Hl Hn. rewrite Hk2; eauto.
  - intros v l E Hr Hl. eauto.
Qed.

Lemma effect_heap_same locs w w' r :
  heap w' = heap w -> dirs w ⊆ dirs w' ->
  (forall v l, r = Ok v -> root v = Some l -> l ∈ locs) ->
  effect locs w w' r.
Proof.
  intros Hh Hd Hr. repeat split; rewrite ?Hh; eauto.
Qed.

Lemma effect_weaken locs locs' w w' r :
  locs ⊆ locs' -> effect locs w w' r -> effect locs' w w' r.
Proof.
  intros Hs (Hd & Ha & Hk & Hr). repeat split; eauto.
Qed.

Lemma kwarg_root key kwargs l args :
  kwarg key kwargs = Some (VObj l) ->
  l ∈ omap root (args ++ map snd kwargs)%list.
Proof.
  intros H. rewrite omap_app. apply elem_of_app. right.
  induction kwargs as [|[k v] kwargs IH]; simpl in *; [done|].
  destruct (String.eqb k key).
  - injection H as ->. simpl. left.
  - destruct (root v); [right|]; by apply IH.
Qed.

Ltac effect_leaf :=
  simpl;
  first
    [ apply effect_raise
    | apply effect_alloc
    | by apply effect_plain
    | apply effect_touch;
      [ first [ by left | by eapply kwarg_root ]
      | first [ done | by intros ? [= <-]; first [left | eapply kwarg_root] ] ]
    | apply effect_heap_same; [done|set_solver|by intros ? ? [= <-]] ].

Lemma func_effect name args kwargs w :
  effect (omap root (args ++ map snd kwargs)%list) w
         (func name args kwargs w).2 (func name args kwargs w).1.
Proof.
  unfold func. repeat case_match; subst; effect_leaf.
Qed.

Lemma method_effect self name args locs w :
  self ∈ locs ->
  effect locs w (method self name args w).2 (method self name args w).1.
Proof.
  intros Hs. unfold method. repeat case_match; subst; simpl;
    first [ apply effect_raise | apply effect_alloc | by apply effect_plain
          | apply effect_touch; [done|by intros ? [= <-]] ].
Qed.

Lemma lib0_effect c w :
  effect (omap root (call_args c)) w (lib0 c w).2 (lib0 c w).1.
Proof.
  unfold lib0. destruct (existsb _ _); [apply effect_raise|].
  destruct c as [name args kwargs|self name args kwargs|self name]; simpl.
  - apply func_effect.
  - destruct self; try apply effect_raise. apply method_effect. simpl. left.
  - destruct self; try apply effect_raise.
    destruct (heap w !! l); [|apply effect_raise].
    apply effect_same. intros ? ? [= <-] [= <-]. simpl. left.
Qed.

Lemma lib0_evaluator_effect locs images_dir kwargs w :
  effect locs w (lib0 (Func "ImageNetEvaluator" [images_dir] kwargs) w).2
                (lib0 (Func "ImageNetEvaluator" [images_dir] kwargs) w).1.
Proof.
  unfold lib0. destruct (existsb _ _); [apply effect_raise|].
  simpl. destruct images_dir; first [apply effect_raise|apply effect_alloc].
Qed.

Lemma lib0_evaluate_effect locs evaluator args w :
  effect locs w (lib0 (Method evaluator "evaluate" args []) w).2
                (lib0 (Method evaluator "evaluate" args []) w).1.
Proof.
  unfold lib0. destruct (existsb _ _); [apply effect_raise|].
  destruct evaluator; try apply effect_raise.
  unfold method. simpl.
  repeat case_match; subst; first [apply effect_raise|by apply effect_plain].
Qed.

Lemma evaluate_effect locs pipeline model iterations use_cuda w :
  effect locs w
    (world (evaluate lib0 image_size batch_size num_workers pipeline model
                     iterations use_cuda (init w)).2)
    (evaluate lib0 image_size batch_size num_workers pipeline model
              iterations use_cuda (init w)).1.
Proof.
  destruct pipeline as [| | | | | | | | |config| |];
    try apply effect_raise.
  destruct config as [| | | | | |items| | | | |]; try apply effect_raise.
  rewrite evaluate_unfold.
  destruct (items !! "dataset_dir") as [images_dir|]; [|apply effect_raise].
  pose proof (lib0_evaluator_effect locs images_dir
                [("image_size", image_size); ("batch_size", batch_size);
                 ("num_workers", num_workers)] w) as H1.
  unfold evaluator_new. simpl.
  destruct (lib0 (Func "ImageNetEvaluator" _ _) w) as [[evaluator|e] w1];
    simpl in *; [|done].
  pose proof (lib0_evaluate_effect locs evaluator
                [model; iterations; use_cuda] w1) as H2.
  unfold evaluator_evaluate.
  destruct (lib0 (Method evaluator "evaluate" _ _) w1) as [r w2].
  simpl in *. by eapply effect_trans.
Qed.

Lemma forward_pass_effect locs callback model args w :
  effect locs w (forward_pass callback model args w).2
                (forward_pass callback model args w).1.
Proof.
  unfold forward_pass.
  destruct callback as [| | | | | | | | | | |f keywords];
    try apply effect_raise.
  destruct f as [| | | | | | | | | |pipeline name|]; try apply effect_raise.
  destruct (String.eqb name "evaluate"); [|apply effect_raise].
  destruct (kwarg "use_cuda" keywords) as [use_cuda|]; [|apply effect_raise].
  pose proof (evaluate_effect locs pipeline model args use_cuda w) as H.
  by destruct (evaluate _ _ _ _ _ _ _ _ _) as [r s].
Qed.

Lemma compute_encodings_effect locs self kwargs w :
  self ∈ locs ->
  effect locs w (compute_encodings self kwargs w).2
                (compute_encodings self kwargs w).1.
Proof.
  intros Hs. unfold compute_encodings.
  destruct (existsb _ _); [apply effect_raise|].
  destruct (kwarg "forward_pass_callback" kwargs) as [callback|];
    [|apply effect_raise].
  destruct (kwarg "forward_pass_callback_args" kwargs) as [args|];
    [|apply effect_raise].
  pose proof (forward_pass_effect locs callback (VObj self) args w) as H.
  destruct (forward_pass callback (VObj self) args w) as [[v|e] w1];
    simpl in *; [|by eapply effect_trans; [done|apply effect_raise]].
  eapply effect_trans; [done|]. by apply effect_touch.
Qed.

Lemma lib_effect c w :
  effect (omap root (call_args c)) w (lib c w).2 (lib c w).1.
Proof.
  unfold lib. destruct c as [name args kwargs|self name args kwargs|self name];
    try apply lib0_effect.
  destruct self; try apply lib0_effect.
  destruct args; [|apply lib0_effect].
  destruct (String.eqb name "compute_encodings"); [|apply lib0_effect].
  apply compute_encodings_effect. simpl. left.
Qed.

(** The stand-in file system keeps its directories. *)
Lemma lib_keeps_directories : directories_persist lib is_dir.
Proof.
  split.
  - intros dir w v w'. unfold makedirs_call, lib, lib0. simpl.
    destruct (existsb _ _); [done|]. unfold func. simpl.
    rewrite andb_false_r. intros [= _ <-]. unfold is_dir. simpl.
    set_solver.
  - intros c w r w' dir E. pose proof (lib_effect c w) as (Hd & _).
    rewrite E in Hd. unfold is_dir. simpl in Hd. set_solver.
Qed.

Lemma apart_roots w p args l :
  root p = Some l -> Forall (apart w p) args -> l ∉ omap root args.
Proof.
  intros Hp Ha Hin. apply list_elem_of_omap in Hin as (a & Hin & Hr).
  rewrite Forall_forall in Ha. by apply (Ha a Hin l).
Qed.

(** The stand-in libraries respect footprints. *)
Lemma deepcopy_fresh x w v w' l :
  lib (Func "copy.deepcopy" [x] []) w = (Ok v, w') ->
  root x = Some l -> is_Some (heap w !! l) ->
  root v <> Some l /\ heap w' !! l = heap w !! l.
Proof.
  unfold lib, lib0. destruct (existsb _ _); [done|]. unfold func. simpl.
  intros E Hx [o El]. destruct x; simplify_eq/=.
  rewrite El in E. unfold alloc in E. simplify_eq/=.
  assert (Hne : fresh (dom (heap w)) <> l).
  { intros Hf. pose proof (is_fresh (dom (heap w))) as Hn.
    rewrite Hf in Hn. apply Hn, elem_of_dom. eauto. }
  split; [congruence|]. by rewrite lookup_insert_ne.
Qed.

Lemma deepcopy_raise_same x w e w' :
  lib (Func "copy.deepcopy" [x] []) w = (Raise e, w') -> w' = w.
Proof.
  unfold lib, lib0. destruct (existsb _ _); [by intros [= _ <-]|].
  unfold func. simpl.
  destruct x; try by intros [=].
  destruct (heap w !! l); [by intros [=]|by intros [= _ <-]].
Qed.

Lemma lib_respects_footprints :
  footprints_respected lib (option obj) alive apart snapshot.
Proof.
  split; [|split; [|split; [|split]]].
  - intros w p v Hi l Hl Hv. destruct v; try discriminate Hv. inversion Hi.
  - intros c w r w' p E Ha Hargs.
    pose proof (lib_effect c w) as (_ & Hal & Hk & Hr).
    rewrite E in Hal, Hk, Hr. simpl in Hal, Hk, Hr.
    split; [|split; [|split]].
    + intros l Hl. by apply Hal, Ha.
    + unfold snapshot. destruct (root p) as [l|] eqn:Hp; [|done].
      apply Hk; [by apply Ha|]. by eapply apart_roots.
    + done.
    + intros v -> l Hl Hv.
      specialize (Hr v l eq_refl Hv (Ha l Hl)).
      exact (apart_roots _ _ _ _ Hl Hargs Hr).
  - intros x w r w' E Ha.
    pose proof (lib_effect (Func "copy.deepcopy" [x] []) w) as (_ & Hal & _).
    rewrite E in Hal. simpl in Hal.
    split; [|split; [|split]].
    + intros l Hl. by apply Hal, Ha.
    + unfold snapshot. destruct (root x) as [l|] eqn:Hx; [|done].
      destruct r as [v|e].
      * by apply (deepcopy_fresh _ _ _ _ _ E Hx), Ha.
      * by rewrite (deepcopy_raise_same _ _ _ _ E).
    + done.
    + intros v -> l Hl. by apply (deepcopy_fresh _ _ _ _ _ E Hl), Ha.
  - intros c w r w' p E Ha l Hl.
    pose proof (lib_effect c w) as (_ & Hal & _).
    rewrite E in Hal. by apply Hal, Ha.
  - intros kwargs w v w'. unfold lib, lib0.
    destruct (existsb _ _); [done|]. unfold func, alloc. simpl.
    intros [= <- <-] l [= <-]. simpl. rewrite lookup_insert_eq. eauto.
Qed.

End MockFacts.


(** ** The theorems on the stand-in libraries *)

Section Instances.

Import Mock.

Local Notation "'mock_evaluate'" :=
  (evaluate lib image_size batch_size num_workers).

(** With CUDA asked for and missing, the guard raises. *)
Lemma use_cuda_guard_raises_iff_witness :
  (globals (setup_state false [] (VBool true)) !! "config"
     = Some (VDict (setup_config (VBool true))) /\
   setup_config (VBool true) !! "use_cuda" = Some (VBool true) /\
   globals (setup_state false [] (VBool true)) !! "model" = Some (VObj 1%positive)) /\
  guard_behaviour lib (setup_state false [] (VBool true)) (VBool true)
                  (VObj 1%positive).
Proof.
  assert (H1 : globals (setup_state false [] (VBool true)) !! "config"
               = Some (VDict (setup_config (VBool true))))
    by (vm_compute; reflexivity).
  assert (H2 : setup_config (VBool true) !! "use_cuda" = Some (VBool true))
    by (vm_compute; reflexivity).
  assert (H3 : globals (setup_state false [] (VBool true)) !! "model"
               = Some (VObj 1%positive))
    by (vm_compute; reflexivity).
  split; [by repeat split|].
  exact (use_cuda_guard_raises_iff lib _ _ _ _ H1 H2 H3).
Defined.

Lemma evaluate_returns_evaluator_result_witness :
  (setup_config (VBool false) !! "dataset_dir" = Some (VStr "data") /\
   evaluator_made = (Ok (VObj 2%positive), evaluator_made.2) /\
   evaluation_made = (Ok (VFloat 4000), evaluation_made.2)) /\
  mock_evaluate (VPipeline (VDict (setup_config (VBool false))))
                (VObj 1%positive) VNone (VBool false)
                (setup_state false [] (VBool false))
  = (Ok (VFloat 4000),
     State evaluation_made.2
           (globals (setup_state false [] (VBool false)))
           [Called (loaded_machine false [])
              (evaluator_new image_size batch_size num_workers (VStr "data"))
              (Ok (VObj 2%positive));
            Called evaluator_made.2
              (evaluator_evaluate (VObj 2%positive) (VObj 1%positive) VNone (VBool false))
              (Ok (VFloat 4000))]).
Proof.
  assert (H1 : setup_config (VBool false) !! "dataset_dir"
               = Some (VStr "data")) by (vm_compute; reflexivity).
  assert (H2 : evaluator_made = (Ok (VObj 2%positive), evaluator_made.2))
    by (vm_compute; reflexivity).
  assert (H3 : evaluation_made = (Ok (VFloat 4000), evaluation_made.2))
    by (vm_compute; reflexivity).
  split; [by repeat split|].
  exact (evaluate_returns_evaluator_result lib image_size batch_size
           num_workers _ _ _ _ _ (setup_state false [] (VBool false))
           _ _ _ _ H1 H2 H3).
Defined.

(** C3: two pipelines built on different dataset directories do not do
    the same for the same arguments. *)
Lemma evaluate_depends_on_config :
  ~ evaluate_ignores_config lib image_size batch_size num_workers.
Proof.
  intros H.
  specialize (H (VDict {["dataset_dir" := VStr "a"]})
                (VDict {["dataset_dir" := VStr "bb"]})
                (VObj 1%positive) VNone (VBool false)
                (setup_state false [] (VBool false))).
  apply (f_equal fst) in H. vm_compute in H. discriminate H.
Qed.

Lemma evaluate_depends_on_dataset_dir_witness :
  setup_config (VBool true) !! "dataset_dir"
    = setup_config (VInt 0) !! "dataset_dir" /\
  mock_evaluate (VPipeline (VDict (setup_config (VBool true))))
                (VObj 1%positive) VNone (VBool false)
                (setup_state false [] (VBool false))
  = mock_evaluate (VPipeline (VDict (setup_config (VInt 0))))
                  (VObj 1%positive) VNone (VBool false)
                  (setup_state false [] (VBool false)).
Proof.
  assert (H : setup_config (VBool true) !! "dataset_dir"
              = setup_config (VInt 0) !! "dataset_dir")
    by (vm_compute; reflexivity).
  split; [done|].
  exact (evaluate_depends_on_dataset_dir lib image_size batch_size
           num_workers _ _ _ _ _ _ H).
Defined.

(** With an evaluator whose [evaluate] fails, [evaluate] fails alike. *)
Lemma exceptions_propagate_unmodified_witness :
  setup_config (VBool false) !! "dataset_dir" = Some (VStr "data") /\
  exists evs,
    trace (mock_evaluate (VPipeline (VDict (setup_config (VBool false))))
                         (VObj 1%positive) VNone (VBool false)
                         (setup_state false ["evaluate"] (VBool false))).2
      = ([] ++ evs)%list /\
    exception_flow nothing_of_its_own
      (mock_evaluate (VPipeline (VDict (setup_config (VBool false))))
                     (VObj 1%positive) VNone (VBool false)
                     (setup_state false ["evaluate"] (VBool false))).1 evs.
Proof.
  assert (H : setup_config (VBool false) !! "dataset_dir"
              = Some (VStr "data")) by (vm_compute; reflexivity).
  split; [done|].
  exact (proj2 (exceptions_propagate_unmodified lib clock image_size
                  batch_size num_workers)
               _ _ _ _ _ (setup_state false ["evaluate"] (VBool false)) H).
Defined.

(** C5: in a run of the notebook as shipped, the steps do not come in the
    order "both transforms, then the simulation again": a simulation is
    built and evaluated between [equalize_model] and [correct_bias]. *)
Lemma steps_not_transforms_then_rerun :
  ~ Order.follows Order.transforms_then_rerun
      (Order.steps (trace shipped_run.2)).
Proof.
  intros H%OrderFacts.follows_in_order. vm_compute in H. discriminate H.
Qed.


Lemma baseline_simulation_keeps_model_witness :
  (footprints_respected lib (option obj) alive apart snapshot /\
   immediate (VStr "path/to/dataset") /\ immediate (VBool true) /\
   immediate image_size /\ immediate batch_size /\ immediate num_workers /\
   after_setup = (Ok tt, after_setup.2)) /\
  baseline_keeps_model lib image_size batch_size num_workers
                       (option obj) apart snapshot after_setup.2.
Proof.
  assert (H : after_setup = (Ok tt, after_setup.2))
    by (vm_compute; reflexivity).
  split.
  - split; [exact MockFacts.lib_respects_footprints|].
    split; [exact (immediate_str _)|].
    split; [exact (immediate_bool _)|].
    split; [exact (immediate_int _)|].
    split; [exact (immediate_int _)|].
    split; [exact (immediate_int _)|exact H].
  - exact (baseline_simulation_keeps_model lib clock image_size batch_size
             num_workers (option obj) alive apart snapshot
             (VStr "path/to/dataset") (VBool true) (fresh_machine true [])
             after_setup.2 MockFacts.lib_respects_footprints
             (immediate_str _) (immediate_bool _) (immediate_int _)
             (immediate_int _) (immediate_int _) H).
Defined.

End Instances.

(** ** What the cells hand to the libraries *)

Section HandoverProperties.

Context {W : Type}.
Variable ext : call -> W -> result val * W.
Variable clock : string -> W -> result string * W.
Variables image_size batch_size num_workers : val.

Local Notation "'run_with'" :=
  (notebook_with ext clock image_size batch_size num_workers).
Local Notation "'evaluate_of'" :=
  (evaluate ext image_size batch_size num_workers).
Local Notation "'data_loader_of'" := (data_loader ext image_size).
Local Notation "'call_value_of'" :=
  (call_value ext image_size batch_size num_workers).

(** *** data_loader *)

Lemma data_loader_unfold (config : gmap string val) (s : state W) :
  data_loader_of (VPipeline (VDict config)) s =
  match config !! "dataset_dir" with
  | Some images_dir =>
      match ext (loader_new image_size images_dir) (world s) with
      | (Ok loader, w1) =>
          let '(r, w2) := ext (loader_attribute loader) w1 in
          (r, State w2 (globals s)
                (trace s ++
                 [Called (world s) (loader_new image_size images_dir)
                    (Ok loader);
                  Called w1 (loader_attribute loader) r]))
      | (Raise e, w1) =>
          (Raise e,
           State w1 (globals s)
                 (trace s ++
                  [Called (world s) (loader_new image_size images_dir)
                     (Raise e)]))
      end
  | None =>
      (Raise (KeyError "dataset_dir"),
       State (world s) (globals s)
             (trace s ++ [Raises (KeyError "dataset_dir")]))
  end.
Proof.
  unfold data_loader, bind, self_config, subscript, call_ext, raise, ret.
  simpl. destruct (config !! "dataset_dir") as [images_dir|]; [|done].
  simpl. fold (loader_new image_size images_dir).
  destruct (ext _ (world s)) as [[loader|e] w1]; [|done]. simpl.
  fold (loader_attribute loader).
  destruct (ext _ w1) as [r w2]. by rewrite <- app_assoc.
Qed.

(** X1: [data_loader] returns the [data_loader] attribute of an
    [ImageNetDataLoader] built for validation data ([is_training=False])
    of the configured dataset directory with the fixed image size; it
    calls nothing else and leaves the namespace alone. *)
Theorem data_loader_returns_loader_attribute (config : gmap string val)
    (images_dir : val) (s : state W) (loader : val) (w1 : W)
    (r : result val) (w2 : W) :
  config !! "dataset_dir" = Some images_dir ->
  ext (loader_new image_size images_dir) (world s) = (Ok loader, w1) ->
  ext (loader_attribute loader) w1 = (r, w2) ->
  data_loader_of (VPipeline (VDict config)) s =
    (r, State w2 (globals s)
          (trace s ++
           [Called (world s) (loader_new image_size images_dir) (Ok loader);
            Called w1 (loader_attribute loader) r])).
Proof. intros Hd Hn Ha. by rewrite data_loader_unfold, Hd, Hn, Ha. Qed.

(** X2: on a configuration without a [dataset_dir] entry, [evaluate] and
    [data_loader] raise [KeyError('dataset_dir')] before any library is
    called: the machine and the namespace are as they were. *)
Theorem missing_dataset_dir_raises_key_error (config : gmap string val)
    (model iterations use_cuda : val) (s : state W) :
  config !! "dataset_dir" = None ->
  let stopped :=
    (Raise (KeyError "dataset_dir"),
     State (world s) (globals s)
           (trace s ++ [Raises (KeyError "dataset_dir")])) in
  evaluate_of (VPipeline (VDict config)) model iterations use_cuda s
    = stopped /\
  data_loader_of (VPipeline (VDict config)) s = stopped.
Proof.
  intros Hd. split.
  - by rewrite evaluate_unfold, Hd.
  - by rewrite data_loader_unfold, Hd.
Qed.

(** X3: when the constructor of the evaluator raises, [evaluate] raises
    the same exception and nothing is evaluated; when the constructor of
    the loader raises, [data_loader] raises the same exception and no
    attribute is read.  Either holds whatever the other constructor
    does. *)
Theorem failed_constructor_ends_the_method (config : gmap string val)
    (images_dir : val) (s : state W) :
  config !! "dataset_dir" = Some images_dir ->
  (forall model iterations use_cuda e w1,
      ext (evaluator_new image_size batch_size num_workers images_dir)
          (world s) = (Raise e, w1) ->
      evaluate_of (VPipeline (VDict config)) model iterations use_cuda s
      = (Raise e,
         State w1 (globals s)
               (trace s ++
                [Called (world s)
                   (evaluator_new image_size batch_size num_workers
                                  images_dir)
                   (Raise e)]))) /\
  (forall e w1,
      ext (loader_new image_size images_dir) (world s) = (Raise e, w1) ->
      data_loader_of (VPipeline (VDict config)) s
      = (Raise e,
         State w1 (globals s)
               (trace s ++
                [Called (world s) (loader_new image_size images_dir)
                   (Raise e)]))).
Proof.
  intros Hd. split.
  - intros model iterations use_cuda e w1 He.
    by rewrite evaluate_unfold, Hd, He.
  - intros e w1 Hl. by rewrite data_loader_unfold, Hd, Hl.
Qed.

(** *** The configuration cell *)

(** X4: the configuration cell reads the clock once, binds [config] to a
    dictionary of exactly [dataset_dir], [use_cuda] and [logdir], the last
    being [benchmark_output/cle_bc_] followed by the stamp, and only then
    calls [os.makedirs] on that directory with [exist_ok=True]: [config]
    is bound also when the directory cannot be made. *)
Theorem config_cell_binds_then_makes_logdir (dataset_dir use_cuda : val)
    (s : state W) (stamp : string) (w1 : W) (r : result val) (w2 : W) :
  clock stamp_format (world s) = (Ok stamp, w1) ->
  ext (makedirs_call (logdir_of stamp)) w1 = (r, w2) ->
  cell_config_with ext clock dataset_dir use_cuda s =
    (forwarded r,
     State w2
           (<["config" := VDict (config_of dataset_dir use_cuda stamp)]>
              (globals s))
           (trace s ++
            [Clock (world s) stamp_format (Ok stamp);
             Called w1 (makedirs_call (logdir_of stamp)) r])) /\
  dom (config_of dataset_dir use_cuda stamp)
    = ({["dataset_dir"; "use_cuda"; "logdir"]} : gset string) /\
  logdir_of stamp = "benchmark_output/cle_bc_" ++ stamp.
Proof.
  intros Hclock Hmk. split; [|split].
  - unfold cell_config_with, bind, now_strftime, assign, load, subscript,
      call_ext, ret.
    fold stamp_format. rewrite Hclock. simpl.
    rewrite lookup_insert_eq. simpl. fold (logdir_of stamp).
    assert (Hl : config_of dataset_dir use_cuda stamp !! "logdir"
                 = Some (VStr (logdir_of stamp)))
      by (vm_compute; reflexivity).
    unfold config_of in Hl. rewrite Hl. simpl.
    fold (makedirs_call (logdir_of stamp)).
    rewrite Hmk. rewrite <- app_assoc. by destruct r.
  - unfold config_of. rewrite !dom_insert_L, dom_empty_L. set_solver.
  - reflexivity.
Qed.

(** *** The callback *)

Lemma callback_is_evaluate config use_cuda model n (s : state W) :
  call_value_of (encodings_callback config use_cuda) [model; n] [] s
  = evaluate_of (VPipeline config) model n use_cuda s.
Proof. reflexivity. Qed.

Lemma call_value_log dataset_dir use_cuda stamp args kwargs (s : state W) :
  callback_log image_size batch_size num_workers dataset_dir s
    (call_value_of
       (encodings_callback (VDict (config_of dataset_dir use_cuda stamp))
                           use_cuda)
       args kwargs s).2.
Proof.
  unfold encodings_callback, call_value. simpl. unfold call_evaluate.
  assert (Hraise : forall e,
             callback_log image_size batch_size num_workers dataset_dir s
                          (@raise W val e s).2).
  { intros e. exists [Raises e]. simpl.
    repeat split; first [done | lia | constructor]. }
  destruct (unexpected_keyword _ _); [apply Hraise|].
  destruct (bind_parameters _ _ _)
    as [[|model [|iterations [|flag [|? ?]]]]|]; try apply Hraise.
  rewrite evaluate_unfold.
  assert (Hd : config_of dataset_dir use_cuda stamp !! "dataset_dir"
               = Some dataset_dir) by apply lookup_insert_eq.
  rewrite Hd.
  destruct (ext _ (world s)) as [[evaluator|e] w1].
  - destruct (ext _ w1) as [r w2]. simpl.
    eexists. split; [reflexivity|]. split; [reflexivity|].
    unfold evaluator_new, evaluator_evaluate.
    destruct r; simpl; repeat split; first [done | lia | repeat constructor].
  - simpl. eexists. split; [reflexivity|]. split; [reflexivity|].
    unfold evaluator_new. simpl.
    repeat split; first [done | lia | repeat constructor].
Qed.

Lemma call_value_silent dataset_dir use_cuda stamp args kwargs
    (s : state W) :
  silent s
    (call_value_of
       (encodings_callback (VDict (config_of dataset_dir use_cuda stamp))
                           use_cuda)
       args kwargs s).2.
Proof.
  destruct (call_value_log dataset_dir use_cuda stamp args kwargs s)
    as (evs & Ht & Hg & _ & _ & _ & _ & Hp).
  split; [exact Hg|]. by exists evs.
Qed.

(** *** A run of the notebook *)

Ltac hide_config :=
  try lazymatch goal with
      | |- context [<["config" := VDict ?c]> _] => generalize c; intro
      end.

Lemma run_handovers dataset_dir use_cuda w0 :
  wp (run_with dataset_dir use_cuda)
     (handovers image_size batch_size num_workers dataset_dir use_cuda)
     (init w0).
Proof.
  wp_start.
  wp_run ltac:(split;
    [ vm_compute; repeat split; reflexivity
    | hide_config; vm_compute; repeat split;
      first [reflexivity | eexists; reflexivity | lia
            | repeat constructor] ]).
Qed.


Ltac from_run_handovers dataset_dir use_cuda w0 pick :=
  let H := fresh in
  pose proof (run_handovers dataset_dir use_cuda w0) as H;
  unfold wp, handovers in H; unfold wp;
  destruct H as (H0 & H1 & H2 & H3 & H4 & H5 & H6 & H7 & H8 & H9 & H10);
  pick H0 H1 H2 H3 H4 H5 H6 H7 H8 H9 H10.

(** X5: of the evaluations the cells ask for with statements of their
    own, the one of the loaded model is asked for with
    [use_cuda=config['use_cuda']] and the three of the simulated models
    with the defaults of [evaluate], [iterations=None] and
    [use_cuda=False], whatever the configuration says; a run that raises
    has asked for a prefix of these four.  An evaluation the simulator
    asks for, by calling the callback it was given on a model and the
    callback arguments, is [evaluate] of that model with these arguments
    as [iterations] and with [use_cuda=config['use_cuda']]. *)
Theorem evaluation_arguments_of_cells_and_callback :
  (forall dataset_dir use_cuda w0,
      wp (run_with dataset_dir use_cuda)
         (simulations_evaluated_with_defaults use_cuda) (init w0)) /\
  (forall config use_cuda,
      kwarg "forward_pass_callback" (encodings_keywords config use_cuda)
        = Some (encodings_callback config use_cuda) /\
      forall model n (s : state W),
        call_value_of (encodings_callback config use_cuda) [model; n] [] s
        = evaluate_of (VPipeline config) model n use_cuda s).
Proof.
  split.
  - intros dataset_dir use_cuda w0.
    from_run_handovers dataset_dir use_cuda w0
      ltac:(fun H0 H1 H2 H3 H4 H5 H6 H7 H8 H9 H10 => exact H1).
  - intros config use_cuda. split; [reflexivity|].
    intros model n s. apply callback_is_evaluate.
Qed.

(** X6: every evaluation builds an [ImageNetEvaluator] of its own from the
    configured dataset directory and the fixed image, batch and worker
    settings, and evaluates on it, so that no evaluator is used twice:
    the cells of a run that ends normally have four built, and each call
    of the callback, whatever its arguments, has one more built, or none
    when the arguments do not fit [evaluate]. *)
Theorem each_evaluation_builds_its_evaluator :
  (forall dataset_dir use_cuda w0,
      wp (run_with dataset_dir use_cuda)
         (evaluator_built_per_evaluation image_size batch_size num_workers
            dataset_dir)
         (init w0)) /\
  (forall dataset_dir use_cuda stamp args kwargs (s : state W),
      callback_log image_size batch_size num_workers dataset_dir s
        (call_value_of
           (encodings_callback
              (VDict (config_of dataset_dir use_cuda stamp)) use_cuda)
           args kwargs s).2).
Proof.
  split.
  - intros dataset_dir use_cuda w0.
    from_run_handovers dataset_dir use_cuda w0
      ltac:(fun H0 H1 H2 H3 H4 H5 H6 H7 H8 H9 H10 => exact H2).
  - apply call_value_log.
Qed.

(** X7: what the notebook prints is, in order, the value returned by each
    evaluation that a cell has asked for, under the label of that cell,
    four lines in a run that ends normally, and the name [accuracy] holds
    the value returned by the last of these evaluations.  A call of the
    callback prints nothing and binds no name: the value of an evaluation
    the simulator asks for goes to the simulator. *)
Theorem cells_print_their_own_evaluations :
  (forall dataset_dir use_cuda w0,
      wp (run_with dataset_dir use_cuda) accuracies_printed (init w0)) /\
  (forall dataset_dir use_cuda stamp args kwargs (s : state W),
      silent s
        (call_value_of
           (encodings_callback
              (VDict (config_of dataset_dir use_cuda stamp)) use_cuda)
           args kwargs s).2).
Proof.
  split.
  - intros dataset_dir use_cuda w0.
    from_run_handovers dataset_dir use_cuda w0
      ltac:(fun H0 H1 H2 H3 H4 H5 H6 H7 H8 H9 H10 => exact H3).
  - apply call_value_silent.
Qed.

(** X8: each simulator has its encodings computed as soon as it is built,
    with no positional argument, with [evaluate] of the pipeline on the
    notebook's configuration as callback, [config['use_cuda']] bound in
    it, and with 1 as [forward_pass_callback_args]; the configuration holds
    the dataset directory and the flag it was given, to the end. *)
Theorem encodings_computed_from_one_batch dataset_dir use_cuda w0 :
  wp (run_with dataset_dir use_cuda)
     (fun r s => config_as_given dataset_dir use_cuda s /\
                 encodings_from_one_batch use_cuda r s)
     (init w0).
Proof.
  from_run_handovers dataset_dir use_cuda w0
    ltac:(fun H0 H1 H2 H3 H4 H5 H6 H7 H8 H9 H10 => exact (conj H0 H4)).
Qed.

(** X9: the three simulators are built with the same quantization scheme,
    rounding mode and bit widths, 8 and 8, which are also those of the
    [QuantParams] given to bias correction; only the last simulator is
    given [in_place], and it is [False]. *)
Theorem simulators_and_bias_correction_share_settings dataset_dir use_cuda w0 :
  wp (run_with dataset_dir use_cuda)
     (quantization_settings_shared)
     (init w0).
Proof.
  from_run_handovers dataset_dir use_cuda w0
    ltac:(fun H0 H1 H2 H3 H4 H5 H6 H7 H8 H9 H10 => exact H5).
Qed.

(** X10: [copy.deepcopy] is given the loaded model, batch norms are folded on
    what it returns, and the first simulator is built on that copy; the
    two simulators after it are built on the loaded model itself. *)
Theorem baseline_simulator_built_on_folded_copy dataset_dir use_cuda w0 :
  wp (run_with dataset_dir use_cuda)
     (baseline_simulates_the_copy)
     (init w0).
Proof.
  from_run_handovers dataset_dir use_cuda w0
    ltac:(fun H0 H1 H2 H3 H4 H5 H6 H7 H8 H9 H10 => exact H6).
Qed.

(** X11: every dummy input is asked of [torch.rand] with the dimensions
    1, 3, 224, 224, the shape that [fold_all_batch_norms] and
    [equalize_model] are told in [input_shapes]. *)
Theorem input_shapes_match_dummy_input dataset_dir use_cuda w0 :
  wp (run_with dataset_dir use_cuda)
     (shapes_agree)
     (init w0).
Proof.
  from_run_handovers dataset_dir use_cuda w0
    ltac:(fun H0 H1 H2 H3 H4 H5 H6 H7 H8 H9 H10 => exact H7).
Qed.

(** X12: when the run ends in a [raise] of the notebook's own, it ends with the
    guard's exception after exactly three calls, [os.makedirs],
    [resnet18] and [torch.cuda.is_available]: the log directory has been
    asked for and the model loaded, and nothing is evaluated, simulated or
    saved. *)
Theorem failed_guard_stops_before_evaluation dataset_dir use_cuda w0 :
  wp (run_with dataset_dir use_cuda)
     (guard_stops_the_run)
     (init w0).
Proof.
  from_run_handovers dataset_dir use_cuda w0
    ltac:(fun H0 H1 H2 H3 H4 H5 H6 H7 H8 H9 H10 => exact H8).
Qed.

(** X13: [eval()] is called on the loaded model and on nothing else, and once
    an evaluation has been asked for it has been called exactly once,
    before that evaluation. *)
Theorem eval_mode_set_before_evaluation dataset_dir use_cuda w0 :
  wp (run_with dataset_dir use_cuda)
     (eval_mode_set_first)
     (init w0).
Proof.
  from_run_handovers dataset_dir use_cuda w0
    ltac:(fun H0 H1 H2 H3 H4 H5 H6 H7 H8 H9 H10 => exact H9).
Qed.

(** X14: the loader for bias correction is built with [is_training=False] on
    the configured dataset directory, its [data_loader] attribute is read
    as soon as it is built, and [correct_bias] is given the loaded model,
    what [QuantParams] returned and that attribute. *)
Theorem correct_bias_given_validation_loader dataset_dir use_cuda w0 :
  wp (run_with dataset_dir use_cuda)
     (bias_correction_inputs image_size dataset_dir)
     (init w0).
Proof.
  from_run_handovers dataset_dir use_cuda w0
    ltac:(fun H0 H1 H2 H3 H4 H5 H6 H7 H8 H9 H10 => exact H10).
Qed.

(** *** Moves to the accelerator *)

(** C8: with [config['use_cuda']] true, the objects moved with [.to] are
    the loaded model and then each tensor [torch.rand] made, every time to
    a [torch.device('cuda')], and each simulator is given the moved
    tensor; with it false there is no [.to], no device and no CUDA query,
    and each simulator is given the tensor as [torch.rand] made it.
    Nothing else is done about resources: every operation a run calls is
    one of the twenty-one of [api], of which the three of [placement_api]
    alone ask for an accelerator or move to one; the [use_cuda] argument
    of an evaluation a cell asks for is [config['use_cuda']] or [False];
    a call of the callback calls nothing but the evaluator's constructor
    and its [evaluate]; and a run stops early only where a call has
    raised. *)
Theorem moves_gated_and_no_other_action :
  (forall dataset_dir use_cuda w0,
      wp (run_with dataset_dir use_cuda)
         (moves_gated_and_nothing_else use_cuda) (init w0)) /\
  (forall dataset_dir use_cuda stamp args kwargs (s : state W),
      callback_log image_size batch_size num_workers dataset_dir s
        (call_value_of
           (encodings_callback
              (VDict (config_of dataset_dir use_cuda stamp)) use_cuda)
           args kwargs s).2).
Proof.
  split; [|apply call_value_log].
  intros dataset_dir use_cuda w0.
  unfold moves_gated_and_nothing_else, moves_gated,
    stops_only_where_raised.
  wp_start.
  wp_run ltac:(split;
    [ flow_end
    | try destruct (truthy use_cuda); vm_compute; repeat split;
      first [reflexivity | eexists; reflexivity | repeat constructor] ]).
Qed.

End HandoverProperties.

(** ** The methods and the configuration cell on the stand-in library *)

Section HandoverInstances.

Import Mock MockCalls.

Lemma data_loader_returns_loader_attribute_witness :
  (setup_config (VBool false) !! "dataset_dir" = Some (VStr "data") /\
   loader_made = (Ok (VObj 2%positive), loader_made.2) /\
   attribute_read = (Ok (VObj 2%positive), attribute_read.2)) /\
  data_loader lib image_size (VPipeline (VDict (setup_config (VBool false))))
              (setup_state false [] (VBool false))
  = (Ok (VObj 2%positive),
     State attribute_read.2
           (globals (setup_state false [] (VBool false)))
           [Called (loaded_machine false [])
              (loader_new image_size (VStr "data")) (Ok (VObj 2%positive));
            Called loader_made.2 (loader_attribute (VObj 2%positive))
              (Ok (VObj 2%positive))]).
Proof.
  assert (H1 : setup_config (VBool false) !! "dataset_dir"
               = Some (VStr "data")) by (vm_compute; reflexivity).
  assert (H2 : loader_made = (Ok (VObj 2%positive), loader_made.2))
    by (vm_compute; reflexivity).
  assert (H3 : attribute_read = (Ok (VObj 2%positive), attribute_read.2))
    by (vm_compute; reflexivity).
  split; [by repeat split|].
  exact (data_loader_returns_loader_attribute lib image_size _ _
           (setup_state false [] (VBool false)) _ _ _ _ H1 H2 H3).
Defined.

Lemma missing_dataset_dir_raises_key_error_witness :
  ({["use_cuda" := VBool false]} : gmap string val) !! "dataset_dir" = None /\
  evaluate lib image_size batch_size num_workers
           (VPipeline (VDict {["use_cuda" := VBool false]}))
           (VObj 1%positive) VNone (VBool false)
           (setup_state false [] (VBool false))
  = (Raise (KeyError "dataset_dir"),
     State (loaded_machine false [])
           (globals (setup_state false [] (VBool false)))
           [Raises (KeyError "dataset_dir")]) /\
  data_loader lib image_size
              (VPipeline (VDict {["use_cuda" := VBool false]}))
              (setup_state false [] (VBool false))
  = (Raise (KeyError "dataset_dir"),
     State (loaded_machine false [])
           (globals (setup_state false [] (VBool false)))
           [Raises (KeyError "dataset_dir")]).
Proof.
  assert (H1 : ({["use_cuda" := VBool false]} : gmap string val)
                 !! "dataset_dir" = None) by (vm_compute; reflexivity).
  split; [exact H1|].
  exact (missing_dataset_dir_raises_key_error lib image_size batch_size
           num_workers _ (VObj 1%positive) VNone (VBool false)
           (setup_state false [] (VBool false)) H1).
Defined.

Lemma failed_constructor_ends_the_method_witness :
  (setup_config (VBool false) !! "dataset_dir" = Some (VStr "data") /\
   lib (evaluator_new image_size batch_size num_workers (VStr "data"))
       (loaded_machine false no_evaluator)
   = (Raise (PyExn "RuntimeError" [VStr "ImageNetEvaluator"]),
      loaded_machine false no_evaluator) /\
   lib (loader_new image_size (VStr "data"))
       (loaded_machine false no_loader)
   = (Raise (PyExn "RuntimeError" [VStr "ImageNetDataLoader"]),
      loaded_machine false no_loader)) /\
  evaluate lib image_size batch_size num_workers
           (VPipeline (VDict (setup_config (VBool false))))
           (VObj 1%positive) VNone (VBool false)
           (setup_state false no_evaluator (VBool false))
  = (Raise (PyExn "RuntimeError" [VStr "ImageNetEvaluator"]),
     State (loaded_machine false no_evaluator)
           (globals (setup_state false no_evaluator (VBool false)))
           [Called (loaded_machine false no_evaluator)
              (evaluator_new image_size batch_size num_workers (VStr "data"))
              (Raise (PyExn "RuntimeError" [VStr "ImageNetEvaluator"]))]) /\
  data_loader lib image_size
              (VPipeline (VDict (setup_config (VBool false))))
              (setup_state false no_loader (VBool false))
  = (Raise (PyExn "RuntimeError" [VStr "ImageNetDataLoader"]),
     State (loaded_machine false no_loader)
           (globals (setup_state false no_loader (VBool false)))
           [Called (loaded_machine false no_loader)
              (loader_new image_size (VStr "data"))
              (Raise (PyExn "RuntimeError" [VStr "ImageNetDataLoader"]))]).
Proof.
  assert (H1 : setup_config (VBool false) !! "dataset_dir"
               = Some (VStr "data")) by (vm_compute; reflexivity).
  assert (H2 : lib (evaluator_new image_size batch_size num_workers
                      (VStr "data"))
                   (loaded_machine false no_evaluator)
               = (Raise (PyExn "RuntimeError" [VStr "ImageNetEvaluator"]),
                  loaded_machine false no_evaluator))
    by (vm_compute; reflexivity).
  assert (H3 : lib (loader_new image_size (VStr "data"))
                   (loaded_machine false no_loader)
               = (Raise (PyExn "RuntimeError" [VStr "ImageNetDataLoader"]),
                  loaded_machine false no_loader))
    by (vm_compute; reflexivity).
  split; [by repeat split|]. split.
  - exact (proj1 (failed_constructor_ends_the_method lib image_size
                    batch_size num_workers _ _
                    (setup_state false no_evaluator (VBool false)) H1)
             (VObj 1%positive) VNone (VBool false) _ _ H2).
  - exact (proj2 (failed_constructor_ends_the_method lib image_size
                    batch_size num_workers _ _
                    (setup_state false no_loader (VBool false)) H1)
             _ _ H3).
Defined.

Lemma config_cell_binds_then_makes_logdir_witness :
  (clock stamp_format (fresh_machine false [])
   = (Ok "2021-06-01-12-00-00", fresh_machine false []) /\
   lib (makedirs_call (logdir_of "2021-06-01-12-00-00"))
       (fresh_machine false [])
   = (Ok VNone, directory_made.2)) /\
  cell_config_with lib clock (VStr "data") (VBool false)
                   (init (fresh_machine false []))
  = (Ok tt,
     State directory_made.2
           (<["config" := VDict (config_of (VStr "data") (VBool false)
                                           "2021-06-01-12-00-00")]> ∅)
           [Clock (fresh_machine false []) stamp_format
              (Ok "2021-06-01-12-00-00");
            Called (fresh_machine false [])
              (makedirs_call (logdir_of "2021-06-01-12-00-00"))
              (Ok VNone)]) /\
  dom (config_of (VStr "data") (VBool false) "2021-06-01-12-00-00")
    = ({["dataset_dir"; "use_cuda"; "logdir"]} : gset string) /\
  logdir_of "2021-06-01-12-00-00"
    = "benchmark_output/cle_bc_2021-06-01-12-00-00".
Proof.
  assert (H1 : clock stamp_format (fresh_machine false [])
               = (Ok "2021-06-01-12-00-00", fresh_machine false []))
    by (vm_compute; reflexivity).
  assert (H2 : lib (makedirs_call (logdir_of "2021-06-01-12-00-00"))
                   (fresh_machine false [])
               = (Ok VNone, directory_made.2))
    by (vm_compute; reflexivity).
  split; [by split|].
  exact (config_cell_binds_then_makes_logdir lib clock (VStr "data")
           (VBool false) (init (fresh_machine false [])) _ _ _ _ H1 H2).
Defined.

End HandoverInstances.

(** ** What the run writes *)

Section ArtifactProperties.

Context {W : Type}.
Variable ext : call -> W -> result val * W.
Variable clock : string -> W -> result string * W.
Variables image_size batch_size num_workers : val.
Variable is_dir : W -> string -> Prop.
Variable artifacts : W -> gset string.

Local Notation "'run_with'" :=
  (notebook_with ext clock image_size batch_size num_workers).

Ltac dirs_chain H1 H2 :=
  lazymatch goal with
  | |- ?is_dir _ ?dir =>
      lazymatch goal with
      | Hc : ext (Func "os.makedirs" _ _) _ = (Ok _, _) |- _ =>
          pose proof (H1 dir _ _ _ Hc); clear Hc
      end
  end;
  repeat first
    [ assumption
    | match goal with
      | Hc : ext _ ?w = (_, ?w'), Hd : _ ?w _ |- _ =>
          pose proof (H2 _ _ _ _ _ Hc Hd); clear Hc Hd
      end ].

(** After a call or a reading of the clock that starts with the files
    [base]: the files it ends with. *)
Ltac artifacts_walk Hclk Hquiet Hsave :=
  repeat match goal with
    | Hc : clock _ ?w = (_, ?w'), Ha : artifacts ?w = ?base |- _ =>
        lazymatch goal with
        | _ : artifacts w' = _ |- _ => fail
        | _ => pose proof (eq_trans (Hclk _ _ _ _ Hc) Ha)
        end
    | Hc : ext ?c ?w = (_, ?w'), Ha : artifacts ?w = ?base |- _ =>
        lazymatch goal with
        | _ : artifacts w' = _ |- _ => fail
        | _ =>
            first
              [ pose proof (eq_trans (Hquiet _ _ _ _ Hc eq_refl) Ha)
              | let Hw := fresh "Hwritten" in
                pose proof (Hsave _ _ _ _ _ Hc) as Hw; rewrite Ha in Hw ]
        end
    end.

(** C7: the run writes one file.  With libraries of which [torch.save]
    alone writes, and writes the file it is told to, every call of a run
    starts with the files the run started with, and a run that ends
    normally leaves these and one more, at
    [os.path.join(config['logdir'], 'quantized_model.pth')]: it saves
    once, as its last call, the loaded model.  Every operation called is
    one of [api]; the only other one on the file system is the
    [os.makedirs] of the log directory with [exist_ok=True], made first,
    so that the directory is there when the model is saved.  A run that
    raises has saved nothing before its last call, and a run stops early
    only where a call has raised. *)
Theorem one_artifact_written dataset_dir use_cuda w0 :
  directories_persist ext is_dir ->
  only_save_writes ext clock artifacts ->
  wp (run_with dataset_dir use_cuda)
     (one_artifact is_dir artifacts w0) (init w0).
Proof.
  intros [Hmk Hkeep] (Hclk & Hquiet & Hsave).
  assert (Ha0 : artifacts w0 = artifacts w0) by reflexivity.
  wp_start.
  wp_run_with ltac:(artifacts_walk Hclk Hquiet Hsave) ltac:(
    artifacts_walk Hclk Hquiet Hsave;
    split; [flow_end|];
    split;
    [ first
        [ do 2 eexists; split; [reflexivity|vm_compute; reflexivity]
        | do 5 eexists; split; [reflexivity|];
          split; [vm_compute; reflexivity|];
          split; [vm_compute; reflexivity|];
          split; [eexists; split; vm_compute; reflexivity|];
          dirs_chain Hmk Hkeep ]
    | split; [vm_compute; reflexivity|];
      split;
      [ vm_compute;
        repeat (constructor; [first [reflexivity | assumption]|]);
        constructor
      | first
          [ intros Hnone; first [assumption | vm_compute in Hnone; discriminate Hnone]
          | eexists; split; [eexists; split; vm_compute; reflexivity|];
            lazymatch goal with
            | Hw : artifacts ?w = _ |- artifacts ?w = _ =>
                etrans; [exact Hw|];
                apply (f_equal (fun p => {[p]} ∪ artifacts w0));
                vm_compute; reflexivity
            end ] ] ]).
Qed.

End ArtifactProperties.

(** ** The stand-in file system *)

Module MockFileFacts.

Import Mock MockFiles.

Lemma alloc_files o w : files (alloc o w).2 = files w.
Proof. reflexivity. Qed.

Lemma touch_files l tag ret w : files (touch l tag ret w).2 = files w.
Proof. unfold touch. by destruct (heap w !! l). Qed.

Lemma func_files name args kwargs w :
  files (func name args kwargs w).2 = files w \/ name = "torch.save".
Proof.
  unfold func.
  repeat case_match; subst; simpl;
    first [ by left | left; apply touch_files
          | right; by apply String.eqb_eq ].
Qed.

Lemma method_files self name args w :
  files (method self name args w).2 = files w.
Proof.
  unfold method. repeat case_match; subst; simpl;
    first [ done | apply touch_files ].
Qed.

Lemma lib0_files c w :
  files (lib0 c w).2 = files w \/ callee c = "torch.save".
Proof.
  unfold lib0. destruct (existsb _ _); [by left|].
  destruct c as [name args kwargs|self name args kwargs|self name]; simpl.
  - apply func_files.
  - left. destruct self; try done. apply method_files.
  - left. destruct self; try done. by destruct (heap w !! l).
Qed.

Lemma evaluate_files pipeline model iterations use_cuda w :
  files (world (evaluate lib0 image_size batch_size num_workers pipeline
                         model iterations use_cuda (init w)).2) = files w.
Proof.
  destruct pipeline as [| | | | | | | | |config| |]; try done.
  destruct config as [| | | | | |items| | | | |]; try done.
  rewrite evaluate_unfold.
  destruct (items !! "dataset_dir") as [images_dir|]; [|done].
  destruct (lib0_files
              (evaluator_new image_size batch_size num_workers images_dir) w)
    as [H1|H1]; [|done].
  simpl in *.
  destruct (lib0 (evaluator_new _ _ _ _) w) as [[evaluator|e] w1];
    simpl in *; [|done].
  destruct (lib0_files
              (evaluator_evaluate evaluator model iterations use_cuda) w1)
    as [H2|H2]; [|done].
  destruct (lib0 (evaluator_evaluate _ _ _ _) w1) as [r w2].
  simpl in *. congruence.
Qed.

Lemma forward_pass_files callback model args w :
  files (forward_pass callback model args w).2 = files w.
Proof.
  unfold forward_pass.
  destruct callback as [| | | | | | | | | | |f keywords]; try done.
  destruct f as [| | | | | | | | | |pipeline name|]; try done.
  destruct (String.eqb name "evaluate"); [|done].
  destruct (kwarg "use_cuda" keywords) as [use_cuda|]; [|done].
  pose proof (evaluate_files pipeline model args use_cuda w) as H.
  by destruct (evaluate _ _ _ _ _ _ _ _ _) as [r s].
Qed.

Lemma compute_encodings_files self kwargs w :
  files (compute_encodings self kwargs w).2 = files w.
Proof.
  unfold compute_encodings.
  destruct (existsb _ _); [done|].
  destruct (kwarg "forward_pass_callback" kwargs) as [callback|]; [|done].
  destruct (kwarg "forward_pass_callback_args" kwargs) as [args|]; [|done].
  pose proof (forward_pass_files callback (VObj self) args w) as H.
  destruct (forward_pass callback (VObj self) args w) as [[v|e] w1];
    simpl in *; [|done].
  by rewrite touch_files.
Qed.

Lemma lib_files c w :
  files (lib c w).2 = files w \/ callee c = "torch.save".
Proof.
  unfold lib. destruct c as [name args kwargs|self name args kwargs|self name];
    try apply lib0_files.
  destruct self; try apply lib0_files.
  destruct args; [|apply lib0_files].
  destruct (String.eqb name "compute_encodings"); [|apply lib0_files].
  left. apply compute_encodings_files.
Qed.

(** On the stand-in file system only [torch.save] writes. *)
Lemma lib_only_save_writes : only_save_writes lib clock artifacts.
Proof.
  split; [|split].
  - by intros fmt w r w' [= _ <-].
  - intros c w r w' E Hq. unfold artifacts.
    destruct (lib_files c w) as [H|H].
    + rewrite E in H. simpl in H. by rewrite H.
    + unfold known in Hq. rewrite H in Hq. discriminate Hq.
  - intros model path w v w'. unfold lib, lib0.
    destruct (existsb _ _); [done|]. unfold func. simpl.
    destruct model; try done.
    destruct (heap w !! l); [|done].
    case_bool_decide; [|done].
    intros [= _ <-]. unfold artifacts. simpl. by rewrite dom_insert_L.
Qed.

End MockFileFacts.

Section ArtifactInstances.

Import Mock MockFiles.

(** The notebook as shipped, on the stand-in libraries. *)
Lemma one_artifact_written_witness :
  (directories_persist lib is_dir /\ only_save_writes lib clock artifacts) /\
  wp (notebook_with lib clock image_size batch_size num_workers
                    (VStr "path/to/dataset") (VBool true))
     (one_artifact is_dir artifacts (fresh_machine true []))
     (init (fresh_machine true [])).
Proof.
  split; [split|].
  - exact MockFacts.lib_keeps_directories.
  - exact MockFileFacts.lib_only_save_writes.
  - exact (one_artifact_written lib clock image_size batch_size num_workers
             is_dir artifacts (VStr "path/to/dataset") (VBool true)
             (fresh_machine true [])
             MockFacts.lib_keeps_directories
             MockFileFacts.lib_only_save_writes).
Defined.

(** What the stand-in file system holds after the notebook as shipped. *)
Lemma shipped_run_writes_the_checkpoint :
  artifacts (world shipped_run.2)
  = {["benchmark_output/cle_bc_2021-06-01-12-00-00/quantized_model.pth"]}.
Proof. vm_compute. reflexivity. Qed.

End ArtifactInstances.

(** ** The stand-in simulator *)

Module MockCopyFacts.

Import Mock.


End MockCopyFacts.

Section InPlaceInstances.

Import Mock MockFiles.


End InPlaceInstances.
